(** * mapchete: the tile-windowed vector pipeline

    A shallow embedding of [mapchete/io/vector.py] (reprojection, geometry
    type cleaning, window read and window write) and of the composite tile
    classes of [mapchete/io_utils.py], with the properties their
    specification states about them.

    External collaborators (shapely, fiona, rasterio, tilematrix, the file
    system) are interfaces: type classes whose fields are the operations
    the code calls.  Every theorem holds for every implementation of these
    interfaces; module [Planar] gives one small implementation on which
    the definitions can be run. *)

From Stdlib Require Import String List ZArith QArith Qminmax Bool.
From Stdlib Require Import DecimalString Qround Qabs.
From stdpp Require Import gmap strings pretty.
Import ListNotations.

Set Warnings "-register-all".

Local Open Scope string_scope.
Local Open Scope list_scope.

(** ** Python outcomes *)

(** The exception classes that occur in the embedded code. *)
Inductive exn : Type :=
| TypeError (msg : string)
| ValueError (msg : string)
| KeyError (key : string)
| RuntimeError (msg : string)
| TopologicalError (msg : string)
| AssertionError
| OSError (path : string)
| IOError (msg : string)
| LibraryError (msg : string).

(** A call either returns a value or raises. *)
Inductive py (A : Type) : Type :=
| Return (a : A)
| Raise (e : exn).
Arguments Return {A} a.
Arguments Raise {A} e.

Definition bind {A B : Type} (m : py A) (k : A -> py B) : py B :=
  match m with
  | Return a => k a
  | Raise e => Raise e
  end.

Declare Scope py_scope.
Delimit Scope py_scope with py.
Notation "x <- m ;; k" := (bind m (fun x => k))
  (at level 100, m at next level, right associativity) : py_scope.
Local Open Scope py_scope.

(** A list comprehension whose element expression may raise: the first
    exception, in iteration order, aborts the comprehension. *)
Fixpoint collect {A : Type} (l : list (py A)) : py (list A) :=
  match l with
  | [] => Return []
  | m :: rest => a <- m ;; r <- collect rest ;; Return (a :: r)
  end.

(** ** Geometries *)

(** The three multipart classes that are the values of the
    [multipart_geoms] dictionary. *)
Inductive multipart_class : Type := MultiPoint | MultiLineString | MultiPolygon.

Global Instance multipart_class_eq_dec : EqDecision multipart_class.
Proof. solve_decision. Defined.

(** A geometry is a tagged value.  Coordinates are opaque to this module
    (only the geometry library looks at them), so their type is a
    parameter.  [Multi cls parts] is an instance of the class [cls]. *)
Inductive Geometry (coords : Type) : Type :=
| Point (c : coords)
| LineString (c : coords)
| Polygon (c : coords)
| Multi (cls : multipart_class) (parts : list (Geometry coords))
| GeometryCollection (members : list (Geometry coords)).
Arguments Point {coords} c.
Arguments LineString {coords} c.
Arguments Polygon {coords} c.
Arguments Multi {coords} cls parts.
Arguments GeometryCollection {coords} members.

Definition class_name (cls : multipart_class) : string :=
  match cls with
  | MultiPoint => "MultiPoint"
  | MultiLineString => "MultiLineString"
  | MultiPolygon => "MultiPolygon"
  end.

(** [geometry.geom_type] *)
Definition geom_type {coords : Type} (g : Geometry coords) : string :=
  match g with
  | Point _ => "Point"
  | LineString _ => "LineString"
  | Polygon _ => "Polygon"
  | Multi cls _ => class_name cls
  | GeometryCollection _ => "GeometryCollection"
  end.

(** [isinstance(geometry, cls)] for a multipart class [cls] *)
Definition isinstance {coords : Type} (g : Geometry coords)
    (cls : multipart_class) : bool :=
  match g with
  | Multi c _ => bool_decide (c = cls)
  | _ => false
  end.

(** Axis-aligned rectangle, the tuple [(left, bottom, right, top)].
    Coordinates are compared, never computed with, in the embedded code;
    they are rationals here. *)
Definition Bounds : Type := (Q * Q * Q * Q)%type.

(** ** The geometry library (shapely) *)

Class GeometryEngine (coords : Type) : Type := {
  (** [geometry.is_valid] *)
  is_valid : Geometry coords -> bool;
  (** [geometry.is_empty] *)
  is_empty : Geometry coords -> bool;
  (** [geometry.buffer(0)] *)
  buffer0 : Geometry coords -> Geometry coords;
  (** [a.intersection(b)] *)
  intersection : Geometry coords -> Geometry coords -> Geometry coords;
  (** [a.within(b)] *)
  within : Geometry coords -> Geometry coords -> bool;
  (** [a.intersects(b)] *)
  intersects : Geometry coords -> Geometry coords -> bool;
  (** [box(left, bottom, right, top)] *)
  box : Bounds -> Geometry coords;
  (** [geometry.bounds] *)
  bounds_of : Geometry coords -> Bounds;
  (** What a multipart constructor makes of the Python list it is called
      with.  The list is the one the caller built: its entries are
      geometries or [None]. *)
  multipart_parts :
    multipart_class -> list (option (Geometry coords)) ->
    py (list (Geometry coords))
}.

(** [cls(parts)]: calling a multipart class yields an instance of that
    class, or raises. *)
Definition construct {coords : Type} `{Engine : GeometryEngine coords}
    (cls : multipart_class) (parts : list (option (Geometry coords)))
    : py (Geometry coords) :=
  ps <- multipart_parts cls parts ;; Return (Multi cls ps).

(** Truth value of [geom] in [if geom:], where [geom] is a geometry or
    [None]: [None] is false, a geometry is true unless it is empty. *)
Definition truthy {coords : Type} `{Engine : GeometryEngine coords}
    (geom : option (Geometry coords)) : bool :=
  match geom with
  | None => false
  | Some g => negb (is_empty g)
  end.

(** ** Geometry type cleaning *)

(** The dictionary [multipart_geoms] of [clean_geometry_type]. *)
Definition multipart_geoms : gmap string multipart_class :=
  list_to_map [
    ("Point", MultiPoint);
    ("LineString", MultiLineString);
    ("Polygon", MultiPolygon);
    ("MultiPoint", MultiPoint);
    ("MultiLineString", MultiLineString);
    ("MultiPolygon", MultiPolygon)
  ].

Fixpoint clean_geometry_type {coords : Type} `{Engine : GeometryEngine coords}
    (geometry : Geometry coords) (target_type : string)
    (allow_multipart : bool) {struct geometry}
    : py (option (Geometry coords)) :=
  match multipart_geoms !! target_type with
  | None => Raise (TypeError "target type is not supported")
  | Some multipart_geom =>
      if (geom_type geometry =? target_type)%string then
        Return (Some geometry)
      else
        match geometry with
        | GeometryCollection members =>
            cleaned <- collect
              (map (fun g => clean_geometry_type g target_type allow_multipart)
                   members) ;;
            out <- construct multipart_geom cleaned ;;
            Return (Some out)
        | _ =>
            if allow_multipart && isinstance geometry multipart_geom then
              Return (Some geometry)
            else
              match multipart_geoms !! geom_type geometry with
              | None => Raise (KeyError (geom_type geometry))
              | Some cls =>
                  if bool_decide (cls = multipart_geom) then
                    Return (Some geometry)
                  else Return None
              end
        end
  end.

(** ** Coordinate reference systems *)

(** A [rasterio.crs.CRS]: either an EPSG code, carried as its [init]
    string (["epsg:3857"]), or some other definition. *)
Inductive CRS : Type :=
| EPSG (init : string)
| CustomCRS (definition : string).

Global Instance CRS_eq_dec : EqDecision CRS.
Proof. solve_decision. Defined.

(** [crs.is_epsg_code] *)
Definition is_epsg_code (crs : CRS) : bool :=
  match crs with EPSG _ => true | CustomCRS _ => false end.

(** [crs.get("init")] *)
Definition get_init (crs : CRS) : option string :=
  match crs with EPSG init => Some init | CustomCRS _ => None end.

(** [CRS().from_epsg(code)] *)
Definition from_epsg (code : Z) : CRS := EPSG ("epsg:" ++ pretty code).

(** What callers may pass where a CRS is expected: a CRS object, a string
    or an integer holding an EPSG code, or anything else. *)
Inductive crs_arg : Type :=
| CRSObject (crs : CRS)
| CRSText (code : string)
| CRSInt (code : Z)
| CRSOther.

(** [int(text)], for a decimal numeral *)
Definition int_of_text (text : string) : py Z :=
  match NilZero.int_of_string text with
  | Some n => Return (Z.of_int n)
  | None => Raise (ValueError "invalid literal for int() with base 10")
  end.

Definition CRS_BOUNDS : gmap string Bounds :=
  list_to_map [
    ("epsg:4326", (-180, -90, 180, 90)%Q);
    ("epsg:3857", (-180, -(850511 # 10000), 180, 850511 # 10000)%Q);
    ("epsg:3035", (-(1067 # 100), 345 # 10, 3155 # 100, 7105 # 100)%Q)
  ].

(** ** Features, datasets and the vector library (fiona) *)

Inductive scalar : Type :=
| PStr (s : string) | PInt (n : Z) | PBool (b : bool) | PNull.

(** A GeoJSON-like feature.  [shape] and [mapping], which convert between
    the GeoJSON dictionary and the geometry object, are the identity here. *)
Record Feature (coords : Type) : Type := mkFeature {
  f_properties : list (string * scalar);
  f_geometry : Geometry coords
}.
Arguments mkFeature {coords} f_properties f_geometry.
Arguments f_properties {coords} f.
Arguments f_geometry {coords} f.

(** An opened vector dataset. *)
Record VectorDataset (coords : Type) : Type := mkDataset {
  vector_crs : CRS;
  vector_features : list (Feature coords)
}.
Arguments mkDataset {coords} vector_crs vector_features.
Arguments vector_crs {coords} v.
Arguments vector_features {coords} v.

(** An output schema: [out_schema["geometry"]] and the property fields. *)
Record Schema : Type := mkSchema {
  schema_geometry : string;
  schema_properties : list (string * string)
}.

(** The state that the writing code acts on: the set of paths at which a
    file exists, and the warnings issued so far. *)
Record world : Type := mkWorld {
  files : gset string;
  warnings : list string
}.

(** A call that acts on the world and returns or raises. *)
Definition io (A : Type) : Type := world -> world * py A.

Definition ret {A : Type} (a : A) : io A := fun w => (w, Return a).

Definition iobind {A B : Type} (m : io A) (k : A -> io B) : io B :=
  fun w =>
    match m w with
    | (w', Return a) => k a w'
    | (w', Raise e) => (w', Raise e)
    end.

Notation "x <~ m ;; k" := (iobind m (fun x => k))
  (at level 100, m at next level, right associativity) : py_scope.

(** [warnings.warn(msg)], once for each of [msgs] *)
Definition warn_all (msgs : list string) : io unit :=
  fun w => (mkWorld (files w) (warnings w ++ msgs), Return tt).


(** [os.path.isfile(path)] *)
Definition isfile (path : string) (w : world) : bool :=
  bool_decide (path ∈ files w).

(** [os.remove(path)]: removes the file, raises [OSError] when there is
    none. *)
Definition os_remove (path : string) : io unit :=
  fun w =>
    if isfile path w
    then (mkWorld (files w ∖ {[path]}) (warnings w), Return tt)
    else (w, Raise (OSError path)).

(** [try: m except OSError: pass] *)
Definition except_OSError_pass (m : io unit) : io unit :=
  fun w =>
    match m w with
    | (w', Raise (OSError _)) => (w', Return tt)
    | r => r
    end.

Class VectorLibrary (coords : Type) : Type := {
  (** [shape(transform_geom(src, dst, mapping(geometry)))] *)
  transform_geom : CRS -> CRS -> Geometry coords -> Geometry coords;
  (** [fiona.open(path, 'r')] *)
  fiona_open : string -> py (VectorDataset coords);
  (** [vector.filter(bbox=...)], in dataset order *)
  vector_filter : VectorDataset coords -> Bounds -> list (Feature coords);
  (** [fiona.open(path, 'w', schema=..., driver="GeoJSON", crs=...)]
      followed by one [dst.write] per feature *)
  fiona_write :
    string -> Schema -> CRS -> list (Feature coords) -> io unit
}.

(** ** Reprojection *)

Section Reprojection.
Context {coords : Type} `{Engine : GeometryEngine coords}
        `{Library : VectorLibrary coords}.

Definition _reproject_geom (geometry : Geometry coords)
    (src_crs dst_crs : CRS) (validity_check : bool)
    : py (Geometry coords) :=
  if is_empty geometry || bool_decide (src_crs = dst_crs) then
    Return (buffer0 geometry)
  else
    let out_geom := buffer0 (transform_geom src_crs dst_crs geometry) in
    (* Python parses [a and not b or c] as [(a and (not b)) or c] *)
    if (validity_check && negb (is_valid out_geom)) || is_empty out_geom
    then Raise (TopologicalError "invalid geometry after reprojection")
    else Return out_geom.

Definition _validated_crs (crs : crs_arg) : py CRS :=
  match crs with
  | CRSObject crs => Return crs
  | CRSText code => n <- int_of_text code ;; Return (from_epsg n)
  | CRSInt code => Return (from_epsg code)
  | CRSOther => Raise (TypeError "invalid CRS given")
  end.

Definition reproject_geometry (geometry : Geometry coords)
    (src_crs dst_crs : crs_arg) (error_on_clip validity_check : bool)
    : py (Geometry coords) :=
  src_crs <- _validated_crs src_crs ;;
  dst_crs <- _validated_crs dst_crs ;;
  (* return repaired geometry if no reprojection needed *)
  if bool_decide (src_crs = dst_crs) then
    Return (buffer0 geometry)
  else
    (* [dst_crs.get("init") in CRS_BOUNDS], with the bounds found *)
    match get_init dst_crs ≫= (fun init => CRS_BOUNDS !! init) with
    | Some dst_bounds =>
        if is_epsg_code dst_crs
           && negb (bool_decide (get_init dst_crs = Some "epsg:4326"))
        then
          let wgs84_crs := from_epsg 4326 in
          let crs_bbox := box dst_bounds in
          geometry_4326 <-
            _reproject_geom geometry src_crs wgs84_crs validity_check ;;
          if error_on_clip && negb (within geometry_4326 crs_bbox) then
            Raise (RuntimeError "geometry outside target CRS bounds")
          else
            _reproject_geom (intersection crs_bbox geometry_4326)
              wgs84_crs dst_crs validity_check
        else _reproject_geom geometry src_crs dst_crs true
    | None => _reproject_geom geometry src_crs dst_crs true
    end.

End Reprojection.

(** ** Lazy feature sequences *)

(** What a consumer observes when it drains a generator: the features
    yielded and the warnings issued, in the order they happen, and the
    exception, if any, that ends the iteration. *)
Inductive event (coords : Type) : Type :=
| Yielded (f : Feature coords)
| Warned (msg : string).
Arguments Yielded {coords} f.
Arguments Warned {coords} msg.

Record stream (coords : Type) : Type := mkStream {
  events : list (event coords);
  raised : option exn
}.
Arguments mkStream {coords} events raised.
Arguments events {coords} s.
Arguments raised {coords} s.

(** The features a stream yields, in order. *)
Fixpoint yielded {coords : Type} (evs : list (event coords))
    : list (Feature coords) :=
  match evs with
  | [] => []
  | Yielded f :: rest => f :: yielded rest
  | Warned _ :: rest => yielded rest
  end.

(** The warnings a stream issues, in order. *)
Fixpoint warned {coords : Type} (evs : list (event coords)) : list string :=
  match evs with
  | [] => []
  | Yielded _ :: rest => warned rest
  | Warned msg :: rest => msg :: warned rest
  end.

(** One iteration of a generator's [for] loop: it runs to the end of the
    loop body, or an exception escapes from it. *)
Inductive step (coords : Type) : Type :=
| Emit (evs : list (event coords))
| Abort (evs : list (event coords)) (e : exn).
Arguments Emit {coords} evs.
Arguments Abort {coords} evs e.

(** [for x in l: body], inside a generator *)
Fixpoint for_each {coords A : Type} (body : A -> step coords) (l : list A)
    : stream coords :=
  match l with
  | [] => mkStream [] None
  | x :: rest =>
      match body x with
      | Emit evs =>
          let s := for_each body rest in
          mkStream (evs ++ events s) (raised s)
      | Abort evs e => mkStream evs (Some e)
      end
  end.

(** [itertools.chain.from_iterable]: the generators are drained one after
    the other; an exception in one ends the chain. *)
Fixpoint chain {coords : Type} (gens : list (stream coords)) : stream coords :=
  match gens with
  | [] => mkStream [] None
  | s :: rest =>
      match raised s with
      | Some e => s
      | None =>
          let r := chain rest in
          mkStream (events s ++ events r) (raised r)
      end
  end.

(** ** Tiles of [mapchete/io/vector.py] *)

Record TilePyramid : Type := mkTilePyramid {
  left : Q; bottom : Q; right : Q; top : Q
}.

(** A buffered tile: [bounds] and [bbox] are those of the tile extended by
    its pixelbuffer. *)
Record BufferedTile (coords : Type) : Type := mkBufferedTile {
  bounds : Bounds;
  bbox : Geometry coords;
  tile_pyramid : TilePyramid;
  pixelbuffer : Z;
  crs : CRS
}.
Arguments mkBufferedTile {coords} bounds bbox tile_pyramid pixelbuffer crs.
Arguments bounds {coords} b.
Arguments bbox {coords} b.
Arguments tile_pyramid {coords} b.
Arguments pixelbuffer {coords} b.
Arguments crs {coords} b.

Class Tilematrix (coords : Type) : Type := {
  (** [clip_geometry_to_srs_bounds(geometry, pyramid, multipart=True)] *)
  clip_geometry_to_srs_bounds :
    Geometry coords -> TilePyramid -> list (Geometry coords)
}.

(** ** Window read and window write *)

Section Windows.
Context {coords : Type} `{Engine : GeometryEngine coords}
        `{Library : VectorLibrary coords}
        `{TM : Tilematrix coords}.

(** The body of the [for feature in vector.filter(...)] loop of
    [_get_reprojected_features]. *)
Definition reproject_feature (vector_crs dst_crs : CRS)
    (dst_bbox : Geometry coords) (validity_check : bool)
    (feature : Feature coords) : step coords :=
  let feature_geom :=
    if is_valid (f_geometry feature) then f_geometry feature
    else buffer0 (f_geometry feature) in
  (* skip feature if geometry cannot be repaired *)
  if negb (is_valid feature_geom) then
    Emit [Warned "feature omitted: broken geometry"]
  else
    match clean_geometry_type (intersection feature_geom dst_bbox)
            (geom_type feature_geom) true with
    | Raise e => Abort [] e
    | Return (Some geom) =>
        if negb (is_empty geom) then
          if bool_decide (vector_crs = dst_crs) && validity_check then
            if is_valid geom then
              Emit [Yielded (mkFeature (f_properties feature) geom)]
            else Abort [] AssertionError
          else
            match reproject_geometry geom (CRSObject vector_crs)
                (CRSObject dst_crs) false validity_check with
            | Return geom' =>
                Emit [Yielded (mkFeature (f_properties feature) geom')]
            | Raise (TopologicalError _) =>
                (* the handler warns and control falls through to the
                   yield, with [geom] still bound to the clipped
                   geometry in the source CRS *)
                Emit [Warned "feature omitted: reprojection failed";
                      Yielded (mkFeature (f_properties feature) geom)]
            | Raise e => Abort [] e
            end
        else
          Emit [Warned
            "feature omitted: geometry type changed after reprojection"]
    | Return None =>
        Emit [Warned
          "feature omitted: geometry type changed after reprojection"]
    end.

Definition _get_reprojected_features (input_file : string)
    (dst_bounds : Bounds) (dst_crs : CRS) (validity_check : bool)
    : stream coords :=
  match fiona_open input_file with
  | Raise e => mkStream [] (Some e)
  | Return vector =>
      let dst_bbox :=
        if bool_decide (vector_crs vector = dst_crs) then
          Return (box dst_bounds)
        else
          reproject_geometry (box dst_bounds) (CRSObject dst_crs)
          (CRSObject (vector_crs vector)) false true in
      match dst_bbox with
      | Raise e => mkStream [] (Some e)
      | Return dst_bbox =>
          for_each
            (reproject_feature (vector_crs vector) dst_crs dst_bbox
               validity_check)
            (vector_filter vector (bounds_of dst_bbox))
      end
  end.

Definition read_vector_window (input_file : string)
    (tile : BufferedTile coords) (validity_check : bool) : stream coords :=
  let '(tile_left, tile_bottom, tile_right, tile_top) := bounds tile in
  let touches_left := Qle_bool tile_left (left (tile_pyramid tile)) in
  let touches_bottom := Qle_bool tile_bottom (bottom (tile_pyramid tile)) in
  let touches_right := Qle_bool (right (tile_pyramid tile)) tile_right in
  let touches_top := Qle_bool (top (tile_pyramid tile)) tile_top in
  let is_on_edge :=
    touches_left || touches_bottom || touches_right || touches_top in
  if negb (pixelbuffer tile =? 0)%Z && is_on_edge then
    let tile_boxes :=
      clip_geometry_to_srs_bounds (bbox tile) (tile_pyramid tile) in
    chain
      (map (fun bbox =>
              _get_reprojected_features input_file (bounds_of bbox)
                (crs tile) validity_check)
           tile_boxes)
  else
    _get_reprojected_features input_file (bounds tile) (crs tile)
      validity_check.

(** The body of the [for feature in in_data] loop of
    [write_vector_window]: the feature to append, if any, and the
    warnings issued. *)
Definition clip_feature (out_schema : Schema) (out_tile : BufferedTile coords)
    (feature : Feature coords) : option (Feature coords) * list string :=
  let clipped := intersection (f_geometry feature) (bbox out_tile) in
  let target_type := schema_geometry out_schema in
  let cleaned :=
    if negb (geom_type clipped =? target_type)%string then
      clean_geometry_type clipped target_type true
    else Return (Some clipped) in
  match cleaned with
  | Raise _ => (None, ["failed geometry cleaning during writing"])
  | Return out_geom =>
      match out_geom with
      | Some g =>
          if negb (is_empty g)
          then (Some (mkFeature (f_properties feature) g), [])
          else (None, [])
      | None => (None, [])
      end
  end.

(** The whole loop: [out_features] and the warnings, in order. *)
Fixpoint clip_features (out_schema : Schema)
    (out_tile : BufferedTile coords) (in_data : list (Feature coords))
    : list (Feature coords) * list string :=
  match in_data with
  | [] => ([], [])
  | feature :: rest =>
      let '(kept, msgs) := clip_feature out_schema out_tile feature in
      let '(out_features, more) := clip_features out_schema out_tile rest in
      (match kept with Some f => f :: out_features | None => out_features end,
       msgs ++ more)
  end.

Definition write_vector_window (in_data : list (Feature coords))
    (out_schema : Schema) (out_tile : BufferedTile coords)
    (out_path : string) : io unit :=
  (* Delete existing file. *)
  _ <~ except_OSError_pass (os_remove out_path) ;;
  (* Return if tile data is empty *)
  match in_data with
  | [] => ret tt
  | _ =>
      let '(out_features, msgs) :=
        clip_features out_schema out_tile in_data in
      _ <~ warn_all msgs ;;
      match out_features with
      | [] => ret tt
      | _ => fiona_write out_path out_schema (crs out_tile) out_features
      end
  end.

End Windows.

(** ** Segmentizing a polygon ring *)

(** What [segmentize_geometry] takes from the geometry library and from
    float arithmetic.  Ring coordinates are pairs of floats, rationals
    here. *)
Class RingLibrary (coords : Type) : Type := {
  (** [geometry.exterior.coords] *)
  exterior_coords : coords -> list (Q * Q);
  (** [Polygon(LinearRing(points))] *)
  polygon_of_ring : list (Q * Q) -> py (Geometry coords);
  (** the length of [range(int(line_segment.length / segmentize_value))],
      for [line_segment = LineString([p_xy, xy])]; the float division and
      the conversion may raise *)
  segment_steps : Q * Q -> Q * Q -> Q -> py nat;
  (** [line_segment.interpolate(segmentize_value * i).coords[0]] *)
  segment_point : Q * Q -> Q * Q -> Q -> nat -> Q * Q
}.

Section Segmentize.
Context {coords : Type} `{Rings : RingLibrary coords}.

(** The loop over [geometry.exterior.coords], from the point where the
    previous coordinate is [p_xy]: the points appended to [points]. *)
Fixpoint segmentize_ring (p_xy : option (Q * Q)) (ring : list (Q * Q))
    (segmentize_value : Q) : py (list (Q * Q)) :=
  match ring with
  | [] => Return []
  | xy :: rest =>
      inserted <-
        match p_xy with
        | None => Return []
        | Some p =>
            n <- segment_steps p xy segmentize_value ;;
            Return (map (segment_point p xy segmentize_value) (seq 0 n))
        end ;;
      more <- segmentize_ring (Some xy) rest segmentize_value ;;
      Return (inserted ++ xy :: more)
  end.

Definition segmentize_geometry (geometry : Geometry coords)
    (segmentize_value : Q) : py (Geometry coords) :=
  match geometry with
  | Polygon c =>
      points <- segmentize_ring None (exterior_coords c) segmentize_value ;;
      polygon_of_ring points
  | _ => Raise (TypeError "segmentize geometry type must be Polygon")
  end.

End Segmentize.

(** ** [mapchete/io_utils.py] *)

Module IoUtils.

(** A tile of a pyramid, addressed by [(zoom, row, col)]. *)
Record Tile : Type := mkTile { zoom : Z; row : Z; col : Z }.

(** [process.tile(tile)]: the tile of a process output pyramid with the
    coordinates of [tile], and the path its data is stored at. *)
Record MapcheteTile : Type := mkMapcheteTile { id : Tile; path : string }.

(** [tile.exists()] *)
Definition exists_ (t : MapcheteTile) (w : world) : bool := isfile (path t) w.

(** A [Mapchete] process as the tile classes use it. *)
Record Mapchete (coords : Type) : Type := mkMapchete {
  (** the storage path of the output tile with given coordinates *)
  tile_path : Tile -> string;
  (** [process.tile_pyramid.tiles_from_bbox(bbox, zoom)] *)
  tiles_from_bbox : Geometry coords -> Z -> list Tile
}.
Arguments mkMapchete {coords} tile_path tiles_from_bbox.
Arguments tile_path {coords} m t.
Arguments tiles_from_bbox {coords} m bbox zoom.

(** [process.tile(tile)] *)
Definition process_tile {coords : Type} (process : Mapchete coords)
    (tile : Tile) : MapcheteTile :=
  mkMapcheteTile tile (tile_path process tile).

(** What this module takes from [tilematrix] (whose [read_vector_window]
    and [write_vector_window] take a path, a tile and a pixelbuffer) and
    from the tile objects. *)
Class Environment (coords : Type) : Type := {
  (** [tile.bbox(pixelbuffer=...)] *)
  tile_bbox : Tile -> Z -> Geometry coords;
  (** [tile.bounds(pixelbuffer=...)] *)
  tile_bounds : Tile -> Z -> Bounds;
  (** [read_vector_window(path, tile, pixelbuffer=...)] *)
  read_vector_window : string -> Tile -> Z -> stream coords;
  (** [write_vector_window(path, tile, metadata, data, pixelbuffer=...)] *)
  write_vector_window :
    string -> Tile -> Schema -> list (Feature coords) -> Z -> io unit;
  (** [file_bbox(input_file, tile_pyramid)] *)
  file_bbox : string -> TilePyramid -> Geometry coords;
  (** [tile.prepare_paths()] *)
  prepare_paths : MapcheteTile -> io unit;
  (** the database branch of [write_vector] *)
  write_vector_db :
    MapcheteTile -> Schema -> list (Feature coords) -> Z -> bool -> io unit
}.

Record VectorProcessTile (coords : Type) : Type := mkVectorProcessTile {
  vp_process : Mapchete coords;
  vp_tile : Tile;
  vp_pixelbuffer : Z
}.
Arguments mkVectorProcessTile {coords} vp_process vp_tile vp_pixelbuffer.
Arguments vp_process {coords} v.
Arguments vp_tile {coords} v.
Arguments vp_pixelbuffer {coords} v.

Record VectorFileTile (coords : Type) : Type := mkVectorFileTile {
  vf_input_file : string;
  vf_tile : Tile;
  vf_tile_pyramid : TilePyramid;
  vf_pixelbuffer : Z
}.
Arguments mkVectorFileTile {coords} vf_input_file vf_tile vf_tile_pyramid
  vf_pixelbuffer.
Arguments vf_input_file {coords} v.
Arguments vf_tile {coords} v.
Arguments vf_tile_pyramid {coords} v.
Arguments vf_pixelbuffer {coords} v.

(** The process whose output [write_vector] writes: its tile and
    [process.output.is_db]. *)
Record TileProcess : Type := mkTileProcess {
  tile : MapcheteTile;
  output_is_db : bool
}.

(** What a [read] of a NumPy tile may return. *)
Inductive pyvalue (ndarray : Type) : Type :=
| PyArray (a : ndarray)
| PyString (s : string).
Arguments PyArray {ndarray} a.
Arguments PyString {ndarray} s.

Record NumpyTile (coords : Type) : Type := mkNumpyTile {
  np_process : Mapchete coords;
  np_tile : Tile;
  np_indexes : Z
}.
Arguments mkNumpyTile {coords} np_process np_tile np_indexes.
Arguments np_process {coords} n.
Arguments np_tile {coords} n.
Arguments np_indexes {coords} n.

Definition raise {A : Type} (e : exn) : io A := fun w => (w, Raise e).

(** [try: m except: handler; raise] *)
Definition try_except_reraise {A : Type} (m : io A) (handler : io unit)
    : io A :=
  fun w =>
    match m w with
    | (w', Raise e) => (_ <~ handler ;; raise e) w'
    | r => r
    end.

(** [if tile.exists(): os.remove(tile.path)] *)
Definition remove_if_exists (t : MapcheteTile) : io unit :=
  fun w => if exists_ t w then os_remove (path t) w else ret tt w.

Section Classes.
Context {coords : Type} `{Engine : GeometryEngine coords}
        `{Library : VectorLibrary coords}
        `{Env : Environment coords}.

(** The tiles of the process pyramid that [read] and [is_empty] look
    at: [src_tiles]. *)
Definition src_tiles (self : VectorProcessTile coords)
    : list MapcheteTile :=
  let dst_tile_bbox := tile_bbox (vp_tile self) (vp_pixelbuffer self) in
  map (process_tile (vp_process self))
      (tiles_from_bbox (vp_process self) dst_tile_bbox
         (zoom (vp_tile self))).

(** [VectorProcessTile.read] *)
Definition VectorProcessTile_read (self : VectorProcessTile coords)
    (no_neighbors : bool) (w : world) : stream coords :=
  if no_neighbors then
    let tile := process_tile (vp_process self) (vp_tile self) in
    if exists_ tile w then
      read_vector_window (path tile) (id tile) (vp_pixelbuffer self)
    else mkStream [] None
  else
    chain
      (map (fun tile =>
              read_vector_window (path tile) (id tile)
                (vp_pixelbuffer self))
           (List.filter (fun tile => exists_ tile w) (src_tiles self))).

(** [VectorProcessTile.is_empty] *)
Definition VectorProcessTile_is_empty (self : VectorProcessTile coords)
    (w : world) : bool :=
  let tile_paths :=
    map path (List.filter (fun tile => exists_ tile w) (src_tiles self)) in
  match tile_paths with
  | [] => true
  | _ => false
  end.

(** [VectorFileTile.is_empty].  The call of [transform_bounds], between
    the two tests, is left out: its result is not used. *)
Definition VectorFileTile_is_empty (self : VectorFileTile coords)
    : py bool :=
  let src_bbox := file_bbox (vf_input_file self) (vf_tile_pyramid self) in
  let tile_geom := tile_bbox (vf_tile self) (vf_pixelbuffer self) in
  if negb (intersects tile_geom src_bbox) then Return true
  else
    vector <- fiona_open (vf_input_file self) ;;
    let features :=
      vector_filter vector
        (tile_bounds (vf_tile self) (vf_pixelbuffer self)) in
    match features with
    | [] => Return true      (* [next(features)] raises StopIteration *)
    | _ :: _ => Return false
    end.

(** [write_vector].  The three [isinstance] assertions at its head hold
    by the types of [metadata] and [data]. *)
Definition write_vector (process : TileProcess) (metadata : Schema)
    (data : list (Feature coords)) (pixelbuffer : Z) (overwrite : bool)
    : io unit :=
  if output_is_db process then
    write_vector_db (tile process) metadata data pixelbuffer overwrite
  else
    _ <~ prepare_paths (tile process) ;;
    _ <~ remove_if_exists (tile process) ;;
    try_except_reraise
      (write_vector_window (path (tile process)) (id (tile process))
         metadata data pixelbuffer)
      (remove_if_exists (tile process)).

End Classes.

Section Numpy.
Context {coords ndarray : Type} (read_numpy : string -> ndarray).

(** [NumpyTile.read].  [indexes] is [None], a list or one index; the
    band indexes computed from it are not used afterwards. *)
Definition NumpyTile_read (self : NumpyTile coords)
    (indexes : option (list Z + Z)) (w : world) : pyvalue ndarray :=
  let band_indexes :=
    match indexes with
    | Some (inl (i :: l)) => i :: l
    | Some (inr i) =>
        if (i =? 0)%Z then seqZ 1 (np_indexes self) else [i]
    | _ => seqZ 1 (np_indexes self)
    end in
  let tile := process_tile (np_process self) (np_tile self) in
  if exists_ tile w then PyArray (read_numpy (path tile))
  else PyString "herbert".

End Numpy.

Section NumpyEmptiness.
Context {coords : Type} `{Engine : GeometryEngine coords}
        `{Env : Environment coords}.

(** [NumpyTile.is_empty].  [process_area] is
    [self.input_file.config.process_area]; the pixelbuffer of a NumPy tile
    is 0.  The band indexes are computed and not used, and the loop over
    the bands after the last [return] is never reached. *)
Definition NumpyTile_is_empty (process_area : Z -> Geometry coords)
    (self : NumpyTile coords) (indexes : option (list Z + Z)) (w : world)
    : bool :=
  let src_bbox := process_area (zoom (np_tile self)) in
  let tile_geom := tile_bbox (np_tile self) 0 in
  if negb (intersects tile_geom src_bbox) then true
  else
    let tile := process_tile (np_process self) (np_tile self) in
    if negb (exists_ tile w) then true else false.

End NumpyEmptiness.

End IoUtils.

(** ** A small implementation of the interfaces

    Planar geometries over rational points, with just enough behaviour to
    run the definitions above on concrete data. *)

Module Planar.

Definition coords : Type := list (Q * Q).

Fixpoint is_empty (g : Geometry coords) : bool :=
  match g with
  | Point c | LineString c | Polygon c =>
      match c with [] => true | _ => false end
  | Multi _ parts => forallb is_empty parts
  | GeometryCollection members => forallb is_empty members
  end.

(** A zero-width buffer keeps areal geometries and turns every other
    geometry into the empty polygon. *)
Definition buffer0 (g : Geometry coords) : Geometry coords :=
  match g with
  | Polygon c => Polygon c
  | Multi MultiPolygon parts => Multi MultiPolygon parts
  | _ => Polygon []
  end.

Definition box (b : Bounds) : Geometry coords :=
  let '(l, b, r, t) := b in Polygon [(l, b); (r, b); (r, t); (l, t); (l, b)].

Fixpoint points (g : Geometry coords) : list (Q * Q) :=
  match g with
  | Point c | LineString c | Polygon c => c
  | Multi _ parts => flat_map points parts
  | GeometryCollection members => flat_map points members
  end.

Definition bounds_of (g : Geometry coords) : Bounds :=
  match points g with
  | [] => (0, 0, 0, 0)%Q
  | (x, y) :: rest =>
      fold_right
        (fun '(px, py) '(l, b, r, t) =>
           (Qmin px l, Qmin py b, Qmax px r, Qmax py t))
        (x, y, x, y) rest
  end.

Definition survivors {A : Type} (l : list (option A)) : list A :=
  omap (fun x => x) l.

(** The polygon constructor skips [None] entries; the point and line
    constructors take geometries only. *)
Definition multipart_parts (cls : multipart_class)
    (l : list (option (Geometry coords))) : py (list (Geometry coords)) :=
  match cls with
  | MultiPolygon => Return (survivors l)
  | _ =>
      if forallb (fun o => match o with Some _ => true | None => false end) l
      then Return (survivors l)
      else Raise (LibraryError "NoneType is not a geometry")
  end.

(** Every geometry counts as valid; clipping is to a window that
    contains everything. *)
Definition engine : GeometryEngine coords :=
  Build_GeometryEngine coords
    (fun _ => true)                                   (* is_valid *)
    is_empty
    buffer0
    (fun a _ => a)                                    (* intersection *)
    (fun _ _ => true)                                 (* within *)
    (fun a b => negb (is_empty a) && negb (is_empty b)) (* intersects *)
    box
    bounds_of
    multipart_parts.

Fixpoint shift (d : Q) (g : Geometry coords) : Geometry coords :=
  let move := map (fun '(x, y) => (x + d, y + d)%Q) in
  match g with
  | Point c => Point (move c)
  | LineString c => LineString (move c)
  | Polygon c => Polygon (move c)
  | Multi cls parts => Multi cls (map (shift d) parts)
  | GeometryCollection members => GeometryCollection (map (shift d) members)
  end.

(** One dataset, stored in EPSG:3857: a point feature followed by a
    polygon feature. *)
Definition town : Feature coords :=
  mkFeature [("name", PStr "town")] (Point [(10, 20)%Q]).

Definition lake : Feature coords :=
  mkFeature [("name", PStr "lake")]
    (Polygon [(0, 0); (4, 0); (4, 4); (0, 0)]%Q).

Definition places : VectorDataset coords :=
  mkDataset (EPSG "epsg:3857") [town; lake].

(** The transformation between two different CRSs moves every point;
    only ["places.geojson"] can be opened; the bounding-box filter keeps
    every feature; writing creates the file. *)
Definition library : VectorLibrary coords :=
  Build_VectorLibrary coords
    (fun _ _ g => shift 1000 g)                       (* transform_geom *)
    (fun path =>
       if (path =? "places.geojson")%string then Return places
       else Raise (IOError path))                     (* fiona_open *)
    (fun v _ => vector_features v)                    (* vector_filter *)
    (fun path _ _ _ w =>
       (mkWorld ({[path]} ∪ files w) (warnings w), Return tt)).

(** Clipping to the pyramid bounds leaves the box in one piece. *)
Definition tilematrix : Tilematrix coords :=
  Build_Tilematrix coords (fun g _ => [g]).

Definition world_pyramid : TilePyramid :=
  mkTilePyramid (-180) (-90) 180 90.

(** A tile in the interior of the pyramid, without pixelbuffer. *)
Definition inner_tile : BufferedTile coords :=
  mkBufferedTile (0, 0, 45, 45)%Q (box (0, 0, 45, 45)%Q) world_pyramid 0
    (EPSG "epsg:4326").

(** A tile with a pixelbuffer whose extent reaches beyond the left and
    the top boundary of the pyramid. *)
Definition corner_tile : BufferedTile coords :=
  mkBufferedTile (-181, 44, -134, 91)%Q (box (-181, 44, -134, 91)%Q)
    world_pyramid 1 (EPSG "epsg:4326").

Definition polygon_schema : Schema := mkSchema "Polygon" [("name", "str")].

(** A feature without geometry. *)
Definition nowhere : Feature coords :=
  mkFeature [("name", PStr "nowhere")] (Polygon []).

(** A world in which ["tile.geojson"] exists. *)
Definition stale : world := mkWorld {["tile.geojson"]} [].

(** A process pyramid with one row of two tiles; every query box
    overlaps both. *)
Definition two_columns : IoUtils.Mapchete coords :=
  IoUtils.mkMapchete
    (fun t => if (IoUtils.col t =? 0)%Z then "west.geojson"
              else "east.geojson")
    (fun _ z => [IoUtils.mkTile z 0 0; IoUtils.mkTile z 0 1]).

(** The composite tile for the western tile, with a pixelbuffer, and a
    world in which both tiles of the process are stored. *)
Definition west_view : IoUtils.VectorProcessTile coords :=
  IoUtils.mkVectorProcessTile two_columns (IoUtils.mkTile 3 0 0) 1.

Definition both_stored : world :=
  mkWorld {["west.geojson"; "east.geojson"]} [].

Definition places_view : IoUtils.VectorFileTile coords :=
  IoUtils.mkVectorFileTile "places.geojson" (IoUtils.mkTile 3 0 0)
    world_pyramid 0.

Definition west_process : IoUtils.TileProcess :=
  IoUtils.mkTileProcess
    (IoUtils.process_tile two_columns (IoUtils.mkTile 3 0 0)) false.

Definition west_numpy : IoUtils.NumpyTile coords :=
  IoUtils.mkNumpyTile two_columns (IoUtils.mkTile 3 0 0) 1.

(** Reading a window yields one feature that records the file read and
    the column of the tile used as window; the window writer creates
    its file and then fails. *)
Definition environment : IoUtils.Environment coords :=
  IoUtils.Build_Environment coords
    (fun t pb =>
       box (inject_Z (IoUtils.col t - pb), inject_Z (IoUtils.row t - pb),
            inject_Z (IoUtils.col t + 1 + pb),
            inject_Z (IoUtils.row t + 1 + pb)))        (* tile_bbox *)
    (fun t pb =>
       (inject_Z (IoUtils.col t - pb), inject_Z (IoUtils.row t - pb),
        inject_Z (IoUtils.col t + 1 + pb),
        inject_Z (IoUtils.row t + 1 + pb)))            (* tile_bounds *)
    (fun path t _ =>
       mkStream
         [Yielded (mkFeature
            [("file", PStr path); ("window_col", PInt (IoUtils.col t))]
            (Point [(0, 0)%Q]))]
         None)                                         (* read_vector_window *)
    (fun path _ _ _ _ w =>
       (mkWorld ({[path]} ∪ files w) (warnings w),
        Raise (IOError "disk full")))                  (* write_vector_window *)
    (fun _ _ => box (-180, -90, 180, 90)%Q)            (* file_bbox *)
    (fun _ => ret tt)                                  (* prepare_paths *)
    (fun _ _ _ _ _ => ret tt).                         (* write_vector_db *)

(** Rings are the coordinate lists themselves; a ring of fewer than three
    points is no polygon; lengths are taken in the taxicab metric and
    steps are counted with exact division. *)
Definition taxicab (p q : Q * Q) : Q :=
  Qabs (fst q - fst p) + Qabs (snd q - snd p).

Definition rings : RingLibrary coords :=
  Build_RingLibrary coords
    (fun c => c)                                        (* exterior_coords *)
    (fun pts =>
       if (length pts <? 3)%nat
       then Raise (ValueError "A LinearRing must have at least 3 points")
       else Return (Polygon pts))                       (* polygon_of_ring *)
    (fun p q v =>
       if Qeq_bool v 0 then Raise (LibraryError "float division by zero")
       else Return (Z.to_nat (Qfloor (taxicab p q / v))))
    (fun p q v i =>
       let t := (inject_Z (Z.of_nat i) * v / taxicab p q)%Q in
       (Qred (fst p + t * (fst q - fst p)),
        Qred (snd p + t * (snd q - snd p)))).

(** A square, as a ring of five coordinates. *)
Definition square : Geometry coords :=
  Polygon [(0, 0); (4, 0); (4, 4); (0, 4); (0, 0)]%Q.

(** The area of the process: the whole pyramid. *)
Definition whole_area (zoom : Z) : Geometry coords :=
  box (-180, -90, 180, 90)%Q.

(** A world in which only the western tile is stored. *)
Definition west_stored : world := mkWorld {["west.geojson"]} [].

(** A collection of a point and a polygon, as a feature. *)
Definition mixed : Feature coords :=
  mkFeature [("name", PStr "mixed")]
    (GeometryCollection [Point [(1, 1)%Q]; f_geometry lake]).

(** A second vector library: only ["mixed.geojson"] can be opened, a
    dataset whose first feature is a geometry collection; the dataset
    writer creates the file and then fails. *)
Definition archive : VectorLibrary coords :=
  Build_VectorLibrary coords
    (fun _ _ g => shift 1000 g)
    (fun path =>
       if (path =? "mixed.geojson")%string
       then Return (mkDataset (EPSG "epsg:3857") [mixed; town])
       else Raise (IOError path))
    (fun v _ => vector_features v)
    (fun path _ _ _ w =>
       (mkWorld ({[path]} ∪ files w) (warnings w),
        Raise (IOError "No space left on device"))).

(** A process pyramid in which every query box overlaps one tile only,
    and the composite tile for it. *)
Definition one_column : IoUtils.Mapchete coords :=
  IoUtils.mkMapchete (fun _ => "west.geojson")
    (fun _ z => [IoUtils.mkTile z 0 0]).

Definition lone_view : IoUtils.VectorProcessTile coords :=
  IoUtils.mkVectorProcessTile one_column (IoUtils.mkTile 3 0 0) 0.

(** A second geometry library: as [engine], but the intersection of two
    geometries whose envelopes do not overlap is the empty polygon. *)
Definition overlap (a b : Geometry coords) : bool :=
  let '(al, ab, ar, at') := bounds_of a in
  let '(bl, bb, br, bt) := bounds_of b in
  Qle_bool al br && Qle_bool bl ar && Qle_bool ab bt && Qle_bool bb at'.

Definition envelope_engine : GeometryEngine coords :=
  Build_GeometryEngine coords
    (fun _ => true)
    is_empty
    buffer0
    (fun a b => if overlap a b then a else Polygon [])
    (fun _ _ => true)
    (fun a b => negb (is_empty a) && negb (is_empty b) && overlap a b)
    box
    bounds_of
    multipart_parts.

(** A polygon north of the latitudes that EPSG:3857 covers. *)
Definition polar_cap : Geometry coords :=
  Polygon [(0, 88); (10, 88); (10, 89); (0, 88)]%Q.

End Planar.

(** ** Vocabulary of the specification *)

Section Vocabulary.
Context {coords : Type}.

(** The outcome the specification's data model allows for a target type:
    no match, a geometry of exactly that type, or an instance of that
    type's multipart class. *)
Definition exact_or_multipart (target_type : string)
    (r : option (Geometry coords)) : Prop :=
  match r with
  | None => True
  | Some g =>
      geom_type g = target_type \/
      exists cls,
        multipart_geoms !! target_type = Some cls /\ isinstance g cls = true
  end.

(** A geometry type belongs to the family of a multipart class: it is the
    class itself or its single-part type. *)
Definition in_family (type_name : string) (cls : multipart_class) : Prop :=
  multipart_geoms !! type_name = Some cls.

(** The tile's extent touches or exceeds one of the four boundaries of
    its pyramid. *)
Definition touches_boundary (tile : BufferedTile coords) : Prop :=
  let '(tile_left, tile_bottom, tile_right, tile_top) := bounds tile in
  (tile_left <= left (tile_pyramid tile))%Q \/
  (tile_bottom <= bottom (tile_pyramid tile))%Q \/
  (right (tile_pyramid tile) <= tile_right)%Q \/
  (top (tile_pyramid tile) <= tile_top)%Q.

(** The world once there is no file at [path]. *)
Definition without_file (path : string) (w : world) : world :=
  mkWorld (files w ∖ {[path]}) (warnings w).

(** The world once the warnings [msgs] are issued. *)
Definition with_warnings (msgs : list string) (w : world) : world :=
  mkWorld (files w) (warnings w ++ msgs).

End Vocabulary.

Section CompositeVocabulary.
Import IoUtils.
Context {coords : Type} `{Env : Environment coords}.

(** The covering tiles of a composite tile: the tiles of the process
    pyramid, at the destination's zoom, that intersect the destination's
    buffered bounding box. *)
Definition covering (self : VectorProcessTile coords) : list Tile :=
  tiles_from_bbox (vp_process self)
    (tile_bbox (vp_tile self) (vp_pixelbuffer self))
    (zoom (vp_tile self)).

(** A covering tile is stored when a file exists at its path. *)
Definition stored (self : VectorProcessTile coords) (w : world) (t : Tile)
    : bool :=
  isfile (tile_path (vp_process self) t) w.

End CompositeVocabulary.

Section ReprojectionVocabulary.

(** The bounds [reproject_geometry] clips to on the way to [dst_crs]: those
    registered for its EPSG code, none for EPSG:4326 and for a CRS without
    registered bounds. *)
Definition clip_bounds (dst_crs : CRS) : option Bounds :=
  match dst_crs with
  | EPSG init =>
      if bool_decide (init = "epsg:4326") then None else CRS_BOUNDS !! init
  | CustomCRS _ => None
  end.


End ReprojectionVocabulary.

Section ReadVocabulary.
Context {coords : Type} `{Engine : GeometryEngine coords}
        `{Library : VectorLibrary coords}.

(** The box that [_get_reprojected_features] filters and clips with: the
    destination bounds as a box in the CRS of the dataset. *)
Definition filter_box (vector : VectorDataset coords) (dst_bounds : Bounds)
    (dst_crs : CRS) : py (Geometry coords) :=
  if bool_decide (vector_crs vector = dst_crs) then Return (box dst_bounds)
  else
    reproject_geometry (box dst_bounds) (CRSObject dst_crs)
      (CRSObject (vector_crs vector)) false true.

End ReadVocabulary.

Section RingVocabulary.

(** The pairs of neighbouring coordinates of a ring, in order. *)
Fixpoint consecutive (ring : list (Q * Q)) : list ((Q * Q) * (Q * Q)) :=
  match ring with
  | p :: (q :: _) as rest => (p, q) :: consecutive rest
  | _ => []
  end.

End RingVocabulary.

(** * Properties *)

(** ** Geometry type cleaning *)

Lemma multipart_geoms_class_name (cls : multipart_class) :
  multipart_geoms !! class_name cls = Some cls.
Proof. destruct cls; vm_compute; reflexivity. Qed.

Lemma multipart_geoms_single :
  multipart_geoms !! "Point" = Some MultiPoint /\
  multipart_geoms !! "LineString" = Some MultiLineString /\
  multipart_geoms !! "Polygon" = Some MultiPolygon.
Proof. repeat split; vm_compute; reflexivity. Qed.

Lemma multipart_geoms_collection :
  multipart_geoms !! "GeometryCollection" = None.
Proof. vm_compute; reflexivity. Qed.

Section Cleaning.
Context {coords : Type} `{Engine : GeometryEngine coords}.

(** The body of [clean_geometry_type], unfolded once. *)
Lemma clean_geometry_type_unfold (geometry : Geometry coords)
    (target_type : string) (allow_multipart : bool) :
  clean_geometry_type geometry target_type allow_multipart =
  match multipart_geoms !! target_type with
  | None => Raise (TypeError "target type is not supported")
  | Some multipart_geom =>
      if (geom_type geometry =? target_type)%string then
        Return (Some geometry)
      else
        match geometry with
        | GeometryCollection members =>
            cleaned <- collect
              (map (fun g =>
                      clean_geometry_type g target_type allow_multipart)
                   members) ;;
            out <- construct multipart_geom cleaned ;;
            Return (Some out)
        | _ =>
            if allow_multipart && isinstance geometry multipart_geom then
              Return (Some geometry)
            else
              match multipart_geoms !! geom_type geometry with
              | None => Raise (KeyError (geom_type geometry))
              | Some cls =>
                  if bool_decide (cls = multipart_geom) then
                    Return (Some geometry)
                  else Return None
              end
        end
  end.
Proof. destruct geometry; reflexivity. Qed.

(** The collection branch. *)
Lemma clean_geometry_type_collection (members : list (Geometry coords))
    (target_type : string) (allow_multipart : bool) (cls : multipart_class) :
  multipart_geoms !! target_type = Some cls ->
  clean_geometry_type (GeometryCollection members) target_type
    allow_multipart =
  (cleaned <- collect
     (map (fun g => clean_geometry_type g target_type allow_multipart)
          members) ;;
   out <- construct cls cleaned ;;
   Return (Some out)).
Proof.
  intros Hsup. rewrite clean_geometry_type_unfold, Hsup.
  destruct (geom_type _ =? target_type)%string eqn:E; [|reflexivity].
  apply String.eqb_eq in E. cbn [geom_type] in E. subst target_type.
  rewrite multipart_geoms_collection in Hsup. discriminate.
Qed.

(** C2, as amended.  For a supported target type, [clean_geometry_type]
    returns no match or a geometry whose type belongs to the target
    type's family, that is, the multipart class or its single-part type
    (for a multipart target this includes the single-part type); and it
    raises on no input but a geometry collection. *)
Theorem clean_geometry_type_family (geometry : Geometry coords)
    (target_type : string) (allow_multipart : bool) (cls : multipart_class) :
  multipart_geoms !! target_type = Some cls ->
  match clean_geometry_type geometry target_type allow_multipart with
  | Return None => True
  | Return (Some g) => in_family (geom_type g) cls
  | Raise _ => exists members, geometry = GeometryCollection members
  end.
Proof.
  intros Hsup. unfold in_family.
  destruct multipart_geoms_single as (HP & HL & HG).
  destruct geometry as [c|c|c|k parts|members];
    [| | | |rewrite (clean_geometry_type_collection _ _ _ _ Hsup);
            destruct (collect _) as [cleaned|e]; cbn [bind]; [|eauto];
            unfold construct;
            destruct (multipart_parts cls cleaned) as [ps|e]; cbn [bind];
            [apply multipart_geoms_class_name|eauto]].
  all: rewrite clean_geometry_type_unfold, Hsup;
    destruct (geom_type _ =? target_type)%string eqn:E;
    [apply String.eqb_eq in E; rewrite E; exact Hsup|].
  1-3: cbn [isinstance geom_type]; rewrite andb_false_r, ?HP, ?HL, ?HG;
    case_bool_decide; [subst cls; assumption|exact I].
  cbn [isinstance geom_type]. rewrite multipart_geoms_class_name.
  destruct (allow_multipart && bool_decide (k = cls)) eqn:A.
  - apply andb_true_iff in A as [_ A]. apply bool_decide_eq_true in A.
    subst k. apply multipart_geoms_class_name.
  - case_bool_decide; [subst k; apply multipart_geoms_class_name|exact I].
Qed.

(** C3.  On the collection of a point and a line, for the target type
    LineString, the list that [clean_geometry_type] hands to the
    MultiLineString constructor still holds the [None] that the point
    was cleaned to: nothing has been discarded. *)
Theorem clean_geometry_type_collection_passes_none (p l : coords)
    (allow_multipart : bool) :
  clean_geometry_type (GeometryCollection [Point p; LineString l])
    "LineString" allow_multipart =
  (out <- construct MultiLineString [None; Some (LineString l)] ;;
   Return (Some out)).
Proof.
  rewrite (clean_geometry_type_collection _ _ _ MultiLineString)
    by (vm_compute; reflexivity).
  cbn [map].
  assert (clean_geometry_type (Point p) "LineString" allow_multipart =
          Return None) as ->
    by (destruct allow_multipart; vm_compute; reflexivity).
  assert (clean_geometry_type (LineString l) "LineString" allow_multipart =
          Return (Some (LineString l))) as ->
    by (destruct allow_multipart; vm_compute; reflexivity).
  reflexivity.
Qed.

End Cleaning.

(** For the target type MultiPolygon a polygon is returned as it is: a
    geometry that is neither of the target type nor an instance of its
    multipart class. *)
Lemma clean_geometry_type_multi_target_keeps_single :
  clean_geometry_type (Engine := Planar.engine)
    (Polygon [(0, 0); (4, 0); (4, 4); (0, 0)]%Q) "MultiPolygon" true =
  Return (Some (Polygon [(0, 0); (4, 0); (4, 4); (0, 0)]%Q)) /\
  ~ exact_or_multipart (coords := Planar.coords) "MultiPolygon"
      (Some (Polygon [(0, 0); (4, 0); (4, 4); (0, 0)]%Q)).
Proof.
  split; [vm_compute; reflexivity|].
  intros [E|(cls & Hc & Hi)]; simpl in *; discriminate.
Qed.

Lemma clean_geometry_type_family_witness :
  in_family (geom_type (f_geometry Planar.lake)) MultiPolygon.
Proof.
  exact (clean_geometry_type_family (Engine := Planar.engine)
           (f_geometry Planar.lake) "MultiPolygon" true MultiPolygon
           ltac:(vm_compute; reflexivity)).
Defined.

(** ** Reprojection *)

Section ReprojectionProperties.
Context {coords : Type} `{Engine : GeometryEngine coords}
        `{Library : VectorLibrary coords}.

(** C4, as amended.  Between distinct CRSs and with the validity check
    set, an empty input geometry is returned after the repair pass (an
    empty success); a non-empty one is transformed and repaired, and the
    step raises a topology error exactly when that result is invalid or
    empty, returning the result otherwise. *)
Theorem _reproject_geom_checked (geometry : Geometry coords)
    (src_crs dst_crs : CRS) :
  src_crs <> dst_crs ->
  _reproject_geom geometry src_crs dst_crs true =
  if is_empty geometry then Return (buffer0 geometry)
  else
    let out_geom := buffer0 (transform_geom src_crs dst_crs geometry) in
    if negb (is_valid out_geom) || is_empty out_geom
    then Raise (TopologicalError "invalid geometry after reprojection")
    else Return out_geom.
Proof.
  intros Hne. unfold _reproject_geom.
  rewrite bool_decide_eq_false_2 by exact Hne.
  destruct (is_empty geometry); reflexivity.
Qed.

(** Without the validity check an empty result still raises: the test
    reads [(validity_check and not is_valid) or is_empty]. *)
Remark _reproject_geom_unchecked_empty (geometry : Geometry coords)
    (src_crs dst_crs : CRS) :
  src_crs <> dst_crs ->
  is_empty geometry = false ->
  is_empty (buffer0 (transform_geom src_crs dst_crs geometry)) = true ->
  _reproject_geom geometry src_crs dst_crs false =
  Raise (TopologicalError "invalid geometry after reprojection").
Proof.
  intros Hne Hg Hout. unfold _reproject_geom.
  rewrite bool_decide_eq_false_2 by exact Hne.
  rewrite Hg, Hout. reflexivity.
Qed.

(** Without the validity check an invalid, non-empty result is
    returned. *)
Remark _reproject_geom_unchecked_invalid (geometry : Geometry coords)
    (src_crs dst_crs : CRS) :
  src_crs <> dst_crs ->
  is_empty geometry = false ->
  is_empty (buffer0 (transform_geom src_crs dst_crs geometry)) = false ->
  _reproject_geom geometry src_crs dst_crs false =
  Return (buffer0 (transform_geom src_crs dst_crs geometry)).
Proof.
  intros Hne Hg Hout. unfold _reproject_geom.
  rewrite bool_decide_eq_false_2 by exact Hne.
  rewrite Hg, Hout. reflexivity.
Qed.

(** When the destination CRS has no registered bounds,
    [reproject_geometry] does not pass its [validity_check] on: the step
    runs with the check set. *)
Remark reproject_geometry_direct (geometry : Geometry coords)
    (src_crs : CRS) (definition : string)
    (error_on_clip validity_check : bool) :
  src_crs <> CustomCRS definition ->
    reproject_geometry geometry (CRSObject src_crs)
    (CRSObject (CustomCRS definition)) error_on_clip validity_check =
  _reproject_geom geometry src_crs (CustomCRS definition) true.
Proof.
  intros Hne. unfold reproject_geometry. cbn [_validated_crs bind].
  rewrite bool_decide_eq_false_2 by exact Hne. reflexivity.
Qed.

End ReprojectionProperties.

(** With the validity check set, an empty polygon reprojected from
    EPSG:3857 to EPSG:4326 comes back empty and no error is raised; without
    the check, reprojecting a point raises a topology error, its repaired
    result being empty. *)
Lemma _reproject_geom_flag_and_emptiness :
  (_reproject_geom (Engine := Planar.engine) (Library := Planar.library)
     (Polygon []) (EPSG "epsg:3857") (EPSG "epsg:4326") true =
   Return (Polygon []) /\
   is_empty (GeometryEngine := Planar.engine) (Polygon []) = true) /\
  _reproject_geom (Engine := Planar.engine) (Library := Planar.library)
    (f_geometry Planar.town) (EPSG "epsg:3857") (EPSG "epsg:4326") false =
  Raise (TopologicalError "invalid geometry after reprojection").
Proof. repeat split; vm_compute; reflexivity. Qed.

Lemma _reproject_geom_checked_witness :
  _reproject_geom (Engine := Planar.engine) (Library := Planar.library)
    (f_geometry Planar.lake) (EPSG "epsg:3857") (EPSG "epsg:4326") true =
  Return (Planar.shift 1000 (f_geometry Planar.lake)).
Proof.
  rewrite (_reproject_geom_checked (Engine := Planar.engine)
             (Library := Planar.library) (f_geometry Planar.lake)
             (EPSG "epsg:3857") (EPSG "epsg:4326"))
    by discriminate.
  vm_compute. reflexivity.
Defined.

(** ** Window read *)

Section ReadProperties.
Context {coords : Type} `{Engine : GeometryEngine coords}
        `{Library : VectorLibrary coords}
        `{TM : Tilematrix coords}.

(** C1.  A feature whose clipped geometry makes [reproject_geometry]
    raise a topology error, the source CRS differing from the tile CRS,
    is not skipped: after the warning it is yielded with the clipped
    geometry, still in the source CRS. *)
Theorem reproject_feature_after_topology_error
    (vector_crs dst_crs : CRS) (dst_bbox : Geometry coords)
    (validity_check : bool) (feature : Feature coords)
    (geom : Geometry coords) (msg : string) :
  vector_crs <> dst_crs ->
  is_valid (f_geometry feature) = true ->
  clean_geometry_type (intersection (f_geometry feature) dst_bbox)
    (geom_type (f_geometry feature)) true = Return (Some geom) ->
  is_empty geom = false ->
    reproject_geometry geom (CRSObject vector_crs) (CRSObject dst_crs) false
    validity_check = Raise (TopologicalError msg) ->
  reproject_feature vector_crs dst_crs dst_bbox validity_check feature =
  Emit [Warned "feature omitted: reprojection failed";
        Yielded (mkFeature (f_properties feature) geom)].
Proof.
  intros Hne Hvalid Hclean Hempty Hraise. unfold reproject_feature.
  rewrite Hvalid. cbv beta iota zeta. rewrite Hvalid. cbn [negb].
  rewrite Hclean, Hempty. cbn [negb].
  rewrite bool_decide_eq_false_2 by exact Hne. cbn [andb].
  rewrite Hraise. reflexivity.
Qed.

(** The loop goes on after an iteration that ran to its end. *)
Lemma for_each_continues {A : Type} (body : A -> step coords) (x : A)
    (rest : list A) (evs : list (event coords)) :
  body x = Emit evs ->
  for_each body (x :: rest) =
  mkStream (evs ++ events (for_each body rest))
           (raised (for_each body rest)).
Proof. intros E. cbn [for_each]. rewrite E. reflexivity. Qed.

(** The sibling path: a feature whose geometry cannot be repaired is
    skipped, with a warning. *)
Lemma reproject_feature_broken_geometry
    (vector_crs dst_crs : CRS) (dst_bbox : Geometry coords)
    (validity_check : bool) (feature : Feature coords) :
  is_valid (f_geometry feature) = false ->
  is_valid (buffer0 (f_geometry feature)) = false ->
  reproject_feature vector_crs dst_crs dst_bbox validity_check feature =
  Emit [Warned "feature omitted: broken geometry"].
Proof.
  intros Hbroken Hrepair. unfold reproject_feature.
  rewrite Hbroken. cbv beta iota zeta. rewrite Hrepair. reflexivity.
Qed.

End ReadProperties.

Lemma reproject_feature_after_topology_error_witness :
  reproject_feature (Engine := Planar.engine) (Library := Planar.library)
    (EPSG "epsg:3857") (EPSG "epsg:4326")
    (Planar.box (0, 0, 45, 45)%Q) false Planar.town =
  Emit [Warned "feature omitted: reprojection failed"; Yielded Planar.town].
Proof.
  apply (reproject_feature_after_topology_error (Engine := Planar.engine)
           (Library := Planar.library) (EPSG "epsg:3857") (EPSG "epsg:4326")
           (Planar.box (0, 0, 45, 45)%Q) false Planar.town
           (f_geometry Planar.town) "invalid geometry after reprojection").
  - discriminate.
  - reflexivity.
  - vm_compute. reflexivity.
  - reflexivity.
  - vm_compute. reflexivity.
Defined.

(** Reading the dataset of a point and a polygon, stored in EPSG:3857, for
    a window in EPSG:4326: the point cannot be reprojected, and both
    features are yielded, the point with its source coordinates. *)
Example _get_reprojected_features_places :
  _get_reprojected_features (Engine := Planar.engine)
    (Library := Planar.library) "places.geojson" (0, 0, 45, 45)%Q
    (EPSG "epsg:4326") false =
  mkStream
    [Warned "feature omitted: reprojection failed";
     Yielded Planar.town;
     Yielded (mkFeature (f_properties Planar.lake)
                (Polygon [(1000, 1000); (1004, 1000); (1004, 1004);
                          (1000, 1000)]%Q))]
    None.
Proof. vm_compute. reflexivity. Qed.

Section SplitProperties.
Context {coords : Type} `{Engine : GeometryEngine coords}
        `{Library : VectorLibrary coords}
        `{TM : Tilematrix coords}.

(** C5.  With pixelbuffer 0, or when the tile's extent touches none of the
    four pyramid boundaries, the window read is one read of the tile's
    buffered extent; only with a non-zero pixelbuffer and an extent that
    touches or exceeds a boundary is the extent split by
    [clip_geometry_to_srs_bounds], each box read on its own and the
    results chained in box order. *)
Theorem read_vector_window_split (input_file : string)
    (tile : BufferedTile coords) (validity_check : bool) :
  (pixelbuffer tile = 0%Z \/ ~ touches_boundary tile ->
   read_vector_window input_file tile validity_check =
   _get_reprojected_features input_file (bounds tile) (crs tile)
     validity_check) /\
  (pixelbuffer tile <> 0%Z -> touches_boundary tile ->
   read_vector_window input_file tile validity_check =
   chain
     (map (fun bbox =>
             _get_reprojected_features input_file (bounds_of bbox)
               (crs tile) validity_check)
          (clip_geometry_to_srs_bounds (bbox tile) (tile_pyramid tile)))).
Proof.
  unfold read_vector_window, touches_boundary.
  destruct (bounds tile) as [[[tile_left tile_bottom] tile_right] tile_top].
  set (on_edge := (Qle_bool tile_left _ || _ || _ || _)%bool).
  assert (Hedge : on_edge = true <->
            (tile_left <= left (tile_pyramid tile))%Q \/
            (tile_bottom <= bottom (tile_pyramid tile))%Q \/
            (right (tile_pyramid tile) <= tile_right)%Q \/
            (top (tile_pyramid tile) <= tile_top)%Q).
  { unfold on_edge. rewrite !orb_true_iff, !Qle_bool_iff. tauto. }
  split.
  - intros Hone.
    destruct (pixelbuffer tile =? 0)%Z eqn:Epb; [reflexivity|].
    destruct on_edge eqn:Eedge; [|reflexivity].
    apply Z.eqb_neq in Epb.
    destruct Hone as [Hzero|Hnot]; [contradiction|].
    exfalso. apply Hnot, Hedge. reflexivity.
  - intros Hpb Htouch.
    apply Z.eqb_neq in Hpb. rewrite Hpb.
    apply Hedge in Htouch. rewrite Htouch. reflexivity.
Qed.

End SplitProperties.

Lemma read_vector_window_split_witness :
  read_vector_window (Engine := Planar.engine) (Library := Planar.library)
    (TM := Planar.tilematrix) "places.geojson" Planar.inner_tile false =
  _get_reprojected_features (Engine := Planar.engine)
    (Library := Planar.library) "places.geojson" (0, 0, 45, 45)%Q
    (EPSG "epsg:4326") false /\
  read_vector_window (Engine := Planar.engine) (Library := Planar.library)
    (TM := Planar.tilematrix) "places.geojson" Planar.corner_tile false =
  chain
    (map (fun bbox =>
            _get_reprojected_features (Engine := Planar.engine)
              (Library := Planar.library) "places.geojson"
              (Planar.bounds_of bbox) (EPSG "epsg:4326") false)
         [Planar.box (-181, 44, -134, 91)%Q]).
Proof.
  split.
  - apply (proj1 (read_vector_window_split (Engine := Planar.engine)
                    (Library := Planar.library) (TM := Planar.tilematrix)
                    "places.geojson" Planar.inner_tile false)).
    left. reflexivity.
  - apply (proj2 (read_vector_window_split (Engine := Planar.engine)
                    (Library := Planar.library) (TM := Planar.tilematrix)
                    "places.geojson" Planar.corner_tile false)).
    + discriminate.
    + left. vm_compute. discriminate.
Defined.

(** ** Composite tiles *)

Lemma filter_map_comm {A B : Type} (f : B -> bool) (g : A -> B) (l : list A) :
  List.filter f (map g l) = map g (List.filter (fun x => f (g x)) l).
Proof.
  induction l as [|x l IH]; cbn; [reflexivity|].
  rewrite IH. destruct (f (g x)); reflexivity.
Qed.

Lemma filter_nil_iff {A : Type} (f : A -> bool) (l : list A) :
  List.filter f l = [] <-> forall x, In x l -> f x = false.
Proof.
  induction l as [|x l IH]; cbn.
  - split; [intros _ y []|reflexivity].
  - destruct (f x) eqn:E; split.
    + discriminate.
    + intros Hall. specialize (Hall x (or_introl eq_refl)). congruence.
    + intros Hnil y [<-|Hy]; [exact E|]. apply IH; assumption.
    + intros Hall. apply IH. intros y Hy. apply Hall. right. exact Hy.
Qed.

(** Removing the file behind a [try ... except OSError: pass], or after an
    existence test, leaves a world without the file and raises nothing,
    whether or not the file was there. *)
Lemma without_file_absent (path : string) (w : world) :
  isfile path w = false -> without_file path w = w.
Proof.
  unfold isfile, without_file. intros Habs.
  apply bool_decide_eq_false in Habs.
  destruct w as [fs ws]; cbn in *. f_equal. set_solver.
Qed.

Lemma isfile_without_file (path : string) (w : world) :
  isfile path (without_file path w) = false.
Proof.
  unfold isfile, without_file; cbn.
  apply bool_decide_eq_false. set_solver.
Qed.

Lemma os_remove_pass (path : string) (w : world) :
  except_OSError_pass (os_remove path) w = (without_file path w, Return tt).
Proof.
  unfold except_OSError_pass, os_remove.
  destruct (isfile path w) eqn:E; [reflexivity|].
  rewrite (without_file_absent _ _ E). reflexivity.
Qed.

Lemma remove_if_exists_spec (t : IoUtils.MapcheteTile) (w : world) :
  IoUtils.remove_if_exists t w =
  (without_file (IoUtils.path t) w, Return tt).
Proof.
  unfold IoUtils.remove_if_exists, IoUtils.exists_, os_remove.
  destruct (isfile (IoUtils.path t) w) eqn:E; [reflexivity|].
  rewrite (without_file_absent _ _ E). reflexivity.
Qed.

Section CompositeProperties.
Import IoUtils.
Context {coords : Type} `{Engine : GeometryEngine coords}
        `{Library : VectorLibrary coords}
        `{Env : Environment coords}.

(** C6, as amended.  The composite read reads the file of every stored
    covering tile, in covering-tile order, with that covering tile itself
    as the window, and chains the results; covering tiles that are not
    stored contribute nothing.  In no-neighbors mode only the tile with
    the destination's coordinates is read, and the result is the empty
    sequence when it is not stored. *)
Theorem VectorProcessTile_read_covering (self : VectorProcessTile coords)
    (w : world) :
  VectorProcessTile_read self false w =
    chain
      (map (fun t =>
              read_vector_window (tile_path (vp_process self) t) t
                (vp_pixelbuffer self))
           (List.filter (stored self w) (covering self))) /\
  VectorProcessTile_read self true w =
    if stored self w (vp_tile self) then
      read_vector_window (tile_path (vp_process self) (vp_tile self))
        (vp_tile self) (vp_pixelbuffer self)
    else mkStream [] None.
Proof.
  split; [|reflexivity].
  unfold VectorProcessTile_read, src_tiles.
  rewrite filter_map_comm, map_map. reflexivity.
Qed.

(** C7.  The composite tile is empty iff no covering tile is stored, and
    that answer reads no data: it is the same whatever the window reader
    is.  A single-file tile whose file can be opened is empty iff its
    buffered extent does not intersect the bounding box of the file or the
    bounding-box filter over the file yields no feature. *)
Theorem is_empty_iff (self : VectorProcessTile coords) (w : world)
    (file_tile : VectorFileTile coords) (vector : VectorDataset coords) :
  fiona_open (vf_input_file file_tile) = Return vector ->
  (VectorProcessTile_is_empty self w = true <->
   forall t, In t (covering self) -> stored self w t = false) /\
  (forall Env' : Environment coords,
     (forall t pb,
        tile_bbox (Environment := Env') t pb =
        tile_bbox (Environment := Env) t pb) ->
     VectorProcessTile_is_empty (Env := Env') self w =
     VectorProcessTile_is_empty (Env := Env) self w) /\
  exists b,
    VectorFileTile_is_empty file_tile = Return b /\
    (b = true <->
     intersects
       (tile_bbox (vf_tile file_tile) (vf_pixelbuffer file_tile))
       (file_bbox (vf_input_file file_tile) (vf_tile_pyramid file_tile))
       = false \/
     vector_filter vector
       (tile_bounds (vf_tile file_tile) (vf_pixelbuffer file_tile)) = []).
Proof.
  intros Hopen. split; [|split].
  - unfold VectorProcessTile_is_empty, src_tiles.
    rewrite filter_map_comm, <- filter_nil_iff.
    fold (covering self).
    destruct (List.filter _ (covering self)); cbn; split;
      try reflexivity; discriminate.
  - intros Env' Hbbox.
    unfold VectorProcessTile_is_empty, src_tiles.
    rewrite Hbbox. reflexivity.
  - unfold VectorFileTile_is_empty.
    destruct (intersects _ _) eqn:Ei; cbn [negb].
    + rewrite Hopen. cbn [bind].
      destruct (vector_filter _ _) eqn:Ef.
      * exists true. split; [reflexivity|]. split; auto.
      * exists false. split; [reflexivity|].
        split; [discriminate|]. intros [?|?]; discriminate.
    + exists true. split; [reflexivity|]. split; auto.
Qed.

End CompositeProperties.

(** For the western tile with a pixelbuffer, both tiles of the process being
    stored, the eastern file is read with the eastern tile as window, not
    with the destination tile. *)
Lemma VectorProcessTile_read_window_is_covering_tile :
  yielded (events
    (IoUtils.VectorProcessTile_read (Env := Planar.environment)
       Planar.west_view false Planar.both_stored)) =
  [ mkFeature [("file", PStr "west.geojson"); ("window_col", PInt 0)]
      (Point [(0, 0)%Q]);
    mkFeature [("file", PStr "east.geojson"); ("window_col", PInt 1)]
      (Point [(0, 0)%Q]) ] /\
  IoUtils.VectorProcessTile_read (Env := Planar.environment)
    Planar.west_view false Planar.both_stored <>
  chain
    (map (fun t =>
            IoUtils.read_vector_window (Environment := Planar.environment)
              (IoUtils.tile_path Planar.two_columns t)
              (IoUtils.vp_tile Planar.west_view) 1)
         (List.filter (stored Planar.west_view Planar.both_stored)
            (covering (Env := Planar.environment) Planar.west_view))).
Proof.
  split; [vm_compute; reflexivity|].
  vm_compute. intros E. discriminate E.
Qed.

Lemma is_empty_iff_witness :
  (IoUtils.VectorProcessTile_is_empty (Env := Planar.environment)
     Planar.west_view Planar.both_stored = true <->
   forall t, In t (covering (Env := Planar.environment) Planar.west_view) ->
             stored Planar.west_view Planar.both_stored t = false) /\
  IoUtils.VectorFileTile_is_empty (Engine := Planar.engine)
    (Library := Planar.library) (Env := Planar.environment)
    Planar.places_view = Return false.
Proof.
  destruct (is_empty_iff (Engine := Planar.engine)
              (Library := Planar.library) (Env := Planar.environment)
              Planar.west_view Planar.both_stored Planar.places_view
              Planar.places eq_refl) as (Hcomposite & _ & b & Hb & _).
  split; [exact Hcomposite|]. vm_compute. reflexivity.
Defined.

(** ** Window write *)

Section WriteProperties.
Context {coords : Type} `{Engine : GeometryEngine coords}
        `{Library : VectorLibrary coords}.

(** C8.  The write first removes the file at the destination, a missing
    file being no error, so that whatever follows starts from a world
    without it.  With an empty input list, or when no feature survives
    clipping and cleaning, the call returns without opening the
    destination: no file exists there afterwards.  Only when a feature
    survives is the destination opened and written. *)
Theorem write_vector_window_file (in_data : list (Feature coords))
    (out_schema : Schema) (out_tile : BufferedTile coords)
    (out_path : string) (w : world) :
  let out_features := fst (clip_features out_schema out_tile in_data) in
  let msgs := snd (clip_features out_schema out_tile in_data) in
  let cleared := with_warnings msgs (without_file out_path w) in
  isfile out_path cleared = false /\
  (in_data = [] ->
   write_vector_window in_data out_schema out_tile out_path w =
   (without_file out_path w, Return tt)) /\
  (in_data <> [] -> out_features = [] ->
   write_vector_window in_data out_schema out_tile out_path w =
   (cleared, Return tt)) /\
  (out_features <> [] ->
   write_vector_window in_data out_schema out_tile out_path w =
   fiona_write out_path out_schema (crs out_tile) out_features cleared).
Proof.
  cbv zeta. unfold write_vector_window, iobind.
  rewrite os_remove_pass.
  split; [apply isfile_without_file|].
  split; [intros ->; reflexivity|].
  destruct (clip_features out_schema out_tile in_data)
    as [out_features msgs] eqn:Eclip.
  cbn [fst snd].
  split.
  - intros Hdata ->. destruct in_data; [contradiction|]. reflexivity.
  - intros Hout. destruct in_data as [|f rest].
    + cbn in Eclip. injection Eclip as <- <-. contradiction.
    + cbn [warn_all]. destruct out_features; [contradiction|]. reflexivity.
Qed.

End WriteProperties.

Lemma write_vector_window_file_witness :
  write_vector_window (Engine := Planar.engine) (Library := Planar.library)
    [] Planar.polygon_schema Planar.inner_tile "tile.geojson" Planar.stale =
  (without_file "tile.geojson" Planar.stale, Return tt) /\
  write_vector_window (Engine := Planar.engine) (Library := Planar.library)
    [Planar.town; Planar.nowhere] Planar.polygon_schema Planar.inner_tile
    "tile.geojson" Planar.stale =
  (without_file "tile.geojson" Planar.stale, Return tt) /\
  isfile "tile.geojson"
    (fst (write_vector_window (Engine := Planar.engine)
            (Library := Planar.library) [Planar.lake] Planar.polygon_schema
            Planar.inner_tile "tile.geojson" Planar.stale)) = true.
Proof.
  split; [|split].
  - destruct (write_vector_window_file (Engine := Planar.engine)
                (Library := Planar.library) [] Planar.polygon_schema
                Planar.inner_tile "tile.geojson" Planar.stale)
      as (_ & Hempty & _).
    apply Hempty. reflexivity.
  - destruct (write_vector_window_file (Engine := Planar.engine)
                (Library := Planar.library) [Planar.town; Planar.nowhere]
                Planar.polygon_schema Planar.inner_tile "tile.geojson"
                Planar.stale) as (_ & _ & Hnone & _).
    apply Hnone; [discriminate|vm_compute; reflexivity].
  - destruct (write_vector_window_file (Engine := Planar.engine)
                (Library := Planar.library) [Planar.lake]
                Planar.polygon_schema Planar.inner_tile "tile.geojson"
                Planar.stale) as (_ & _ & _ & Hsome).
    rewrite Hsome; [|vm_compute; discriminate].
    apply bool_decide_eq_true. cbn. set_solver.
Defined.

Section WriteVectorProperties.
Import IoUtils.
Context {coords : Type} `{Env : Environment coords}.

(** C9.  When, for a file destination, the window write raises after
    the paths are prepared, [write_vector] removes the destination file
    if it is there and raises the same exception: no file exists at the
    destination afterwards. *)
Theorem write_vector_failure_removes_file (process : TileProcess)
    (metadata : Schema) (data : list (Feature coords))
    (pixelbuffer : Z) (overwrite : bool) (w w1 w2 : world) (e : exn) :
  output_is_db process = false ->
  prepare_paths (tile process) w = (w1, Return tt) ->
  write_vector_window (path (tile process)) (id (tile process)) metadata
    data pixelbuffer (without_file (path (tile process)) w1) =
    (w2, Raise e) ->
  write_vector process metadata data pixelbuffer overwrite w =
    (without_file (path (tile process)) w2, Raise e) /\
  isfile (path (tile process)) (without_file (path (tile process)) w2) =
    false.
Proof.
  intros Hfile Hprepare Hwrite.
  split; [|apply isfile_without_file].
  unfold write_vector, iobind, try_except_reraise.
  rewrite Hfile, Hprepare, remove_if_exists_spec, Hwrite.
  unfold iobind. rewrite remove_if_exists_spec. reflexivity.
Qed.

(** C10.  [NumpyTile.read] returns the string "herbert" when the tile of
    the process output is not stored. *)
Theorem NumpyTile_read_herbert {ndarray : Type}
    (read_numpy : string -> ndarray) (self : NumpyTile coords)
    (indexes : option (list Z + Z)) (w : world) :
  exists_ (process_tile (np_process self) (np_tile self)) w = false ->
  NumpyTile_read read_numpy self indexes w = PyString "herbert".
Proof. intros Habsent. unfold NumpyTile_read. rewrite Habsent. reflexivity. Qed.

End WriteVectorProperties.

Lemma write_vector_failure_removes_file_witness :
  IoUtils.write_vector (Env := Planar.environment) Planar.west_process
    Planar.polygon_schema [Planar.lake] 0 false Planar.both_stored =
  (without_file "west.geojson"
     (mkWorld ({["west.geojson"]} ∪ files
                 (without_file "west.geojson" Planar.both_stored)) []),
   Raise (IOError "disk full")) /\
  isfile "west.geojson"
    (without_file "west.geojson"
       (mkWorld ({["west.geojson"]} ∪ files
                   (without_file "west.geojson" Planar.both_stored)) [])) =
  false.
Proof.
  exact (write_vector_failure_removes_file (Env := Planar.environment)
           Planar.west_process Planar.polygon_schema [Planar.lake] 0 false
           Planar.both_stored Planar.both_stored _ (IOError "disk full")
           eq_refl eq_refl eq_refl).
Defined.

Lemma NumpyTile_read_herbert_witness :
  IoUtils.NumpyTile_read (fun _ : string => [[0%Z]]) Planar.west_numpy None
    (mkWorld ∅ []) = IoUtils.PyString "herbert".
Proof.
  apply (NumpyTile_read_herbert (fun _ : string => [[0%Z]]) Planar.west_numpy
           None (mkWorld ∅ [])).
  vm_compute. reflexivity.
Defined.

(** * Further properties *)

(** ** Geometry type cleaning *)

(** Induction on a geometry, with the property known for the members of a
    collection. *)
Lemma Geometry_members_ind {coords : Type} (P : Geometry coords -> Prop) :
  (forall c, P (Point c)) ->
  (forall c, P (LineString c)) ->
  (forall c, P (Polygon c)) ->
  (forall cls parts, P (Multi cls parts)) ->
  (forall members, Forall P members -> P (GeometryCollection members)) ->
  forall g, P g.
Proof.
  intros HPoint HLine HPolygon HMulti HCollection.
  refine (fix IH (g : Geometry coords) : P g :=
            match g with
            | Point c => HPoint c
            | LineString c => HLine c
            | Polygon c => HPolygon c
            | Multi cls parts => HMulti cls parts
            | GeometryCollection members =>
                HCollection members
                  ((fix go (l : list (Geometry coords)) : Forall P l :=
                      match l with
                      | [] => @List.Forall_nil _ P
                      | x :: l' => @List.Forall_cons _ P x l' (IH x) (go l')
                      end) members)
            end).
Qed.

Lemma map_ext_Forall_eq {A B : Type} (f g : A -> B) (l : list A) :
  Forall (fun x => f x = g x) l -> map f l = map g l.
Proof.
  induction 1 as [|x l Hx _ IH]; cbn; [reflexivity|].
  rewrite Hx, IH. reflexivity.
Qed.

Section CleaningExtras.
Context {coords : Type} `{Engine : GeometryEngine coords}.

(** X1.  The [allow_multipart] argument has no effect: the last branch
    accepts whatever the [allow_multipart] branch accepts. *)
Theorem clean_geometry_type_allow_multipart (geometry : Geometry coords)
    (target_type : string) :
  clean_geometry_type geometry target_type true =
  clean_geometry_type geometry target_type false.
Proof.
  induction geometry as [c|c|c|k parts|members IH]
    using Geometry_members_ind;
    rewrite 2!clean_geometry_type_unfold;
    destruct (multipart_geoms !! target_type) as [cls|] eqn:Hsup;
    try reflexivity;
    destruct (geom_type _ =? target_type)%string; try reflexivity.
  - cbn [isinstance geom_type andb].
    rewrite multipart_geoms_class_name.
    destruct (bool_decide (k = cls)); reflexivity.
  - rewrite (map_ext_Forall_eq _ _ _ IH). reflexivity.
Qed.

(** X2.  On a geometry that is not a collection, [clean_geometry_type]
    raises exactly when the target type is not supported (a TypeError);
    otherwise it returns the geometry itself when its type belongs to the
    family of the target type, and no match when it does not. *)
Theorem clean_geometry_type_single (geometry : Geometry coords)
    (target_type : string) (allow_multipart : bool) :
  (forall members, geometry <> GeometryCollection members) ->
  clean_geometry_type geometry target_type allow_multipart =
  match multipart_geoms !! target_type with
  | None => Raise (TypeError "target type is not supported")
  | Some cls =>
      Return (if bool_decide (multipart_geoms !! geom_type geometry = Some cls)
              then Some geometry else None)
  end.
Proof.
  intros Hsingle. rewrite clean_geometry_type_unfold.
  destruct (multipart_geoms !! target_type) as [cls|] eqn:Hsup;
    [|reflexivity].
  destruct (geom_type geometry =? target_type)%string eqn:E.
  { apply String.eqb_eq in E. rewrite E, Hsup.
    rewrite bool_decide_eq_true_2 by reflexivity. reflexivity. }
  destruct multipart_geoms_single as (HP & HL & HG).
  destruct geometry as [c|c|c|k parts|members];
    [| | | |exfalso; exact (Hsingle members eq_refl)];
    cbn [isinstance geom_type]; rewrite ?andb_false_r, ?HP, ?HL, ?HG,
      ?multipart_geoms_class_name.
  1-3: repeat case_bool_decide; congruence.
  destruct allow_multipart; cbn [andb]; repeat case_bool_decide; congruence.
Qed.

(** X3.  On a collection, [clean_geometry_type] never reports no match and
    never returns the collection: what it returns is an instance of the
    multipart class of the target type. *)
Theorem clean_geometry_type_collection_multipart
    (members : list (Geometry coords)) (target_type : string)
    (allow_multipart : bool) (cls : multipart_class)
    (r : option (Geometry coords)) :
  multipart_geoms !! target_type = Some cls ->
  clean_geometry_type (GeometryCollection members) target_type
    allow_multipart = Return r ->
  exists parts, r = Some (Multi cls parts).
Proof.
  intros Hsup. rewrite (clean_geometry_type_collection _ _ _ _ Hsup).
  destruct (collect _) as [cleaned|e]; cbn [bind]; [|discriminate].
  unfold construct.
  destruct (multipart_parts cls cleaned) as [ps|e]; cbn [bind];
    [|discriminate].
  intros [= <-]. exists ps. reflexivity.
Qed.

(** What [clean_geometry_type] returns belongs to the family of the target
    type. *)
Lemma clean_geometry_type_some (geometry r : Geometry coords)
    (target_type : string) (allow_multipart : bool) (cls : multipart_class) :
  multipart_geoms !! target_type = Some cls ->
  clean_geometry_type geometry target_type allow_multipart =
    Return (Some r) ->
  multipart_geoms !! geom_type r = Some cls.
Proof.
  intros Hsup Hclean.
  destruct geometry as [c|c|c|k parts|members].
  1-4: rewrite clean_geometry_type_single, Hsup in Hclean by discriminate;
    case_bool_decide; [|discriminate];
    injection Hclean as <-; assumption.
  destruct (clean_geometry_type_collection_multipart _ _ _ _ _ Hsup Hclean)
    as [ps [= ->]].
  apply multipart_geoms_class_name.
Qed.

End CleaningExtras.

Lemma clean_geometry_type_single_witness :
  clean_geometry_type (Engine := Planar.engine)
    (f_geometry Planar.town) "Polygon" true = Return None /\
  clean_geometry_type (Engine := Planar.engine)
    (f_geometry Planar.lake) "MultiPolygon" false =
  Return (Some (f_geometry Planar.lake)) /\
  clean_geometry_type (Engine := Planar.engine)
    (f_geometry Planar.lake) "GeometryCollection" true =
  Raise (TypeError "target type is not supported").
Proof.
  split; [|split];
    rewrite (clean_geometry_type_single (Engine := Planar.engine))
      by discriminate;
    vm_compute; reflexivity.
Defined.

Lemma clean_geometry_type_collection_multipart_witness :
  exists parts,
    Some (Multi MultiPolygon [f_geometry Planar.lake]) =
    Some (Multi (coords := Planar.coords) MultiPolygon parts).
Proof.
  apply (clean_geometry_type_collection_multipart (Engine := Planar.engine)
           [Point [(1, 1)%Q]; f_geometry Planar.lake] "Polygon" true
           MultiPolygon).
  - vm_compute. reflexivity.
  - vm_compute. reflexivity.
Defined.

(** ** Reprojection *)

Section ReprojectionExtras.
Context {coords : Type} `{Engine : GeometryEngine coords}
        `{Library : VectorLibrary coords}.

(** The only exception of a reprojection step is the topology error. *)
Lemma _reproject_geom_raises (geometry : Geometry coords)
    (src_crs dst_crs : CRS) (validity_check : bool) (e : exn) :
  _reproject_geom geometry src_crs dst_crs validity_check = Raise e ->
  e = TopologicalError "invalid geometry after reprojection".
Proof.
  unfold _reproject_geom.
  destruct (is_empty geometry || bool_decide (src_crs = dst_crs));
    [discriminate|].
  destruct (_ || _); [|discriminate].
  intros [= <-]. reflexivity.
Qed.

(** [reproject_geometry] on two different CRS objects: the clipping path
    when the destination has bounds to clip to, the direct path, with the
    validity check set, when it has none. *)
Lemma reproject_geometry_paths (geometry : Geometry coords)
    (src_crs dst_crs : CRS) (error_on_clip validity_check : bool) :
  src_crs <> dst_crs ->
  reproject_geometry geometry (CRSObject src_crs) (CRSObject dst_crs)
    error_on_clip validity_check =
  match clip_bounds dst_crs with
  | Some dst_bounds =>
      geometry_4326 <-
        _reproject_geom geometry src_crs (from_epsg 4326) validity_check ;;
      if error_on_clip && negb (within geometry_4326 (box dst_bounds)) then
        Raise (RuntimeError "geometry outside target CRS bounds")
      else
        _reproject_geom (intersection (box dst_bounds) geometry_4326)
          (from_epsg 4326) dst_crs validity_check
  | None => _reproject_geom geometry src_crs dst_crs true
  end.
Proof.
  intros Hne. unfold reproject_geometry. cbn [_validated_crs bind].
  rewrite bool_decide_eq_false_2 by exact Hne.
  destruct dst_crs as [init|definition]; [|reflexivity].
  cbn [get_init mbind option_bind is_epsg_code clip_bounds andb].
  destruct (CRS_BOUNDS !! init) as [dst_bounds|] eqn:Hb.
  - repeat case_bool_decide; try congruence; reflexivity.
  - case_bool_decide; reflexivity.
Qed.

(** X4.  A reprojection step between distinct CRSs that returns, for a
    non-empty input, returns the transformed and repaired geometry, and
    that geometry is not empty; with the validity check set it is valid
    too. *)
Theorem _reproject_geom_returns (geometry r : Geometry coords)
    (src_crs dst_crs : CRS) (validity_check : bool) :
  src_crs <> dst_crs ->
  is_empty geometry = false ->
  _reproject_geom geometry src_crs dst_crs validity_check = Return r ->
  r = buffer0 (transform_geom src_crs dst_crs geometry) /\
  is_empty r = false /\
  (validity_check = true -> is_valid r = true).
Proof.
  intros Hne Hg. unfold _reproject_geom.
  rewrite Hg, bool_decide_eq_false_2 by exact Hne. cbn [orb].
  destruct (is_empty (buffer0 _)) eqn:Hout;
    [rewrite orb_true_r; discriminate|].
  rewrite orb_false_r.
  destruct (validity_check && _) eqn:Hcheck; [discriminate|].
  intros [= <-]. repeat split; [exact Hout|].
  intros ->. cbn [andb] in Hcheck.
  apply negb_false_iff in Hcheck. exact Hcheck.
Qed.


(** X6.  When both arguments denote the same CRS, in whatever form,
    nothing is transformed: the result is the repaired input, whatever
    the two flags are. *)
Theorem reproject_geometry_identity (geometry : Geometry coords)
    (src_crs dst_crs : crs_arg) (crs : CRS)
    (error_on_clip validity_check : bool) :
  _validated_crs src_crs = Return crs ->
  _validated_crs dst_crs = Return crs ->
  reproject_geometry geometry src_crs dst_crs error_on_clip validity_check =
  Return (buffer0 geometry).
Proof.
  intros Hs Hd. unfold reproject_geometry. rewrite Hs, Hd. cbn [bind].
  rewrite bool_decide_eq_true_2 by reflexivity. reflexivity.
Qed.

(** X7.  On the way to EPSG:4326, or to a CRS without registered bounds,
    neither flag of [reproject_geometry] has an effect: the geometry is
    reprojected in one step, with the validity check set. *)
Theorem reproject_geometry_unclipped (geometry : Geometry coords)
    (src_crs dst_crs : CRS) (error_on_clip validity_check : bool) :
  src_crs <> dst_crs ->
  clip_bounds dst_crs = None ->
  reproject_geometry geometry (CRSObject src_crs) (CRSObject dst_crs)
    error_on_clip validity_check =
  _reproject_geom geometry src_crs dst_crs true.
Proof.
  intros Hne Hnone.
  rewrite (reproject_geometry_paths _ _ _ _ _ Hne), Hnone. reflexivity.
Qed.

(** X8.  [reproject_geometry], on CRS objects, raises the RuntimeError of
    a bounds violation exactly when [error_on_clip] is set, the
    destination differs from the source and has bounds to clip to, the
    step to EPSG:4326 returns, and its result is not within these
    bounds. *)
Theorem reproject_geometry_bounds_violation (geometry : Geometry coords)
    (src_crs dst_crs : CRS) (error_on_clip validity_check : bool) :
  reproject_geometry geometry (CRSObject src_crs) (CRSObject dst_crs)
    error_on_clip validity_check =
    Raise (RuntimeError "geometry outside target CRS bounds") <->
  error_on_clip = true /\ src_crs <> dst_crs /\
  exists dst_bounds geometry_4326,
    clip_bounds dst_crs = Some dst_bounds /\
    _reproject_geom geometry src_crs (from_epsg 4326) validity_check =
      Return geometry_4326 /\
    within geometry_4326 (box dst_bounds) = false.
Proof.
  split.
  - intros Hraise.
    destruct (decide (src_crs = dst_crs)) as [->|Hne].
    { unfold reproject_geometry in Hraise.
      cbn [_validated_crs bind] in Hraise.
      rewrite bool_decide_eq_true_2 in Hraise by reflexivity.
      discriminate. }
    rewrite (reproject_geometry_paths _ _ _ _ _ Hne) in Hraise.
    destruct (clip_bounds dst_crs) as [b|];
      [|apply _reproject_geom_raises in Hraise; discriminate].
    destruct (_reproject_geom geometry src_crs (from_epsg 4326)
                validity_check) as [g4326|e1] eqn:H1; cbn [bind] in Hraise.
    2: { injection Hraise as ->.
         apply _reproject_geom_raises in H1. discriminate. }
    destruct error_on_clip; cbn [andb] in Hraise;
      [|apply _reproject_geom_raises in Hraise; discriminate].
    destruct (within g4326 (box b)) eqn:Hw; cbn [negb] in Hraise;
      [apply _reproject_geom_raises in Hraise; discriminate|].
    split; [reflexivity|]. split; [exact Hne|].
    exists b, g4326. repeat split; assumption.
  - intros (-> & Hne & b & g4326 & Hb & H1 & Hw).
    rewrite (reproject_geometry_paths _ _ _ _ _ Hne), Hb, H1. cbn [bind].
    rewrite Hw. reflexivity.
Qed.

(** X9.  A geometry that, in EPSG:4326, has nothing in common with the
    bounds of the destination CRS is reprojected, when no bounds error is
    asked for, to the repaired empty intersection: an empty result and no
    error, also with the validity check set. *)
Theorem reproject_geometry_outside_bounds
    (geometry geometry_4326 : Geometry coords) (src_crs dst_crs : CRS)
    (dst_bounds : Bounds) (validity_check : bool) :
  src_crs <> dst_crs ->
  clip_bounds dst_crs = Some dst_bounds ->
  _reproject_geom geometry src_crs (from_epsg 4326) validity_check =
    Return geometry_4326 ->
  is_empty (intersection (box dst_bounds) geometry_4326) = true ->
  reproject_geometry geometry (CRSObject src_crs) (CRSObject dst_crs)
    false validity_check =
  Return (buffer0 (intersection (box dst_bounds) geometry_4326)).
Proof.
  intros Hne Hb H1 Hempty.
  rewrite (reproject_geometry_paths _ _ _ _ _ Hne), Hb, H1.
  cbn [bind andb]. unfold _reproject_geom. rewrite Hempty. reflexivity.
Qed.

End ReprojectionExtras.

Lemma _reproject_geom_returns_witness :
  Planar.shift 1000 (f_geometry Planar.lake) =
    buffer0 (GeometryEngine := Planar.engine)
      (transform_geom (VectorLibrary := Planar.library)
         (EPSG "epsg:3857") (EPSG "epsg:4326") (f_geometry Planar.lake)) /\
  is_empty (GeometryEngine := Planar.engine)
    (Planar.shift 1000 (f_geometry Planar.lake)) = false /\
  (true = true ->
   is_valid (GeometryEngine := Planar.engine)
     (Planar.shift 1000 (f_geometry Planar.lake)) = true).
Proof.
  apply (_reproject_geom_returns (Engine := Planar.engine)
           (Library := Planar.library) (f_geometry Planar.lake)
           (Planar.shift 1000 (f_geometry Planar.lake))
           (EPSG "epsg:3857") (EPSG "epsg:4326") true).
  - discriminate.
  - reflexivity.
  - vm_compute. reflexivity.
Defined.


Lemma reproject_geometry_identity_witness :
  reproject_geometry (Engine := Planar.engine) (Library := Planar.library)
    (f_geometry Planar.lake) (CRSText "4326") (CRSInt 4326) true true =
  Return (f_geometry Planar.lake).
Proof.
  apply (reproject_geometry_identity (Engine := Planar.engine)
           (Library := Planar.library) (f_geometry Planar.lake)
           (CRSText "4326") (CRSInt 4326) (EPSG "epsg:4326") true true).
  - vm_compute. reflexivity.
  - vm_compute. reflexivity.
Defined.

Lemma reproject_geometry_unclipped_witness :
  reproject_geometry (Engine := Planar.engine) (Library := Planar.library)
    (f_geometry Planar.lake) (CRSObject (EPSG "epsg:3857"))
    (CRSObject (EPSG "epsg:4326")) true false =
  _reproject_geom (Engine := Planar.engine) (Library := Planar.library)
    (f_geometry Planar.lake) (EPSG "epsg:3857") (EPSG "epsg:4326") true.
Proof.
  apply (reproject_geometry_unclipped (Engine := Planar.engine)
           (Library := Planar.library)).
  - discriminate.
  - vm_compute. reflexivity.
Defined.

Lemma reproject_geometry_outside_bounds_witness :
  reproject_geometry (Engine := Planar.envelope_engine)
    (Library := Planar.library) Planar.polar_cap
    (CRSObject (EPSG "epsg:4326")) (CRSObject (EPSG "epsg:3857"))
    false true =
  Return (Polygon []).
Proof.
  apply (reproject_geometry_outside_bounds
           (Engine := Planar.envelope_engine) (Library := Planar.library)
           Planar.polar_cap Planar.polar_cap (EPSG "epsg:4326")
           (EPSG "epsg:3857")
           (-180, -(850511 # 10000), 180, 850511 # 10000)%Q true).
  - discriminate.
  - vm_compute. reflexivity.
  - vm_compute. reflexivity.
  - vm_compute. reflexivity.
Defined.

(** ** Window read *)

Lemma yielded_app {coords : Type} (a b : list (event coords)) :
  yielded (a ++ b) = yielded a ++ yielded b.
Proof.
  induction a as [|[f|msg] a IH]; cbn; [reflexivity| |exact IH].
  rewrite IH. reflexivity.
Qed.

Lemma warned_app {coords : Type} (a b : list (event coords)) :
  warned (a ++ b) = warned a ++ warned b.
Proof.
  induction a as [|[f|msg] a IH]; cbn; [reflexivity|exact IH|].
  rewrite IH. reflexivity.
Qed.

Section ReadExtras.
Context {coords : Type} `{Engine : GeometryEngine coords}
        `{Library : VectorLibrary coords} `{TM : Tilematrix coords}.

(** One iteration of the loop: it yields one feature, with the properties
    of the candidate, or it yields nothing and warns once; an iteration
    that raises has yielded nothing and warned of nothing. *)
Lemma reproject_feature_cases (vector_crs dst_crs : CRS)
    (dst_bbox : Geometry coords) (validity_check : bool)
    (feature : Feature coords) :
  match reproject_feature vector_crs dst_crs dst_bbox validity_check
          feature with
  | Emit evs =>
      (exists geom,
         yielded evs = [mkFeature (f_properties feature) geom]) \/
      (exists msg, evs = [Warned msg])
  | Abort evs _ => evs = []
  end.
Proof.
  unfold reproject_feature.
  destruct (negb (is_valid _)); [right; eauto|].
  destruct (clean_geometry_type _ _ _) as [[geom|]|e];
    [|right; eauto|reflexivity].
  destruct (negb (is_empty geom)); [|right; eauto].
  destruct (bool_decide _ && validity_check).
  - destruct (is_valid geom); [left; eauto|reflexivity].
  - destruct (reproject_geometry _ _ _ _ _) as [geom'|e];
      [left; eauto|].
    destruct e; try reflexivity. left. eauto.
Qed.

(** The generator, once the dataset is open and the filter box known. *)
Lemma _get_reprojected_features_loop (input_file : string)
    (dst_bounds : Bounds) (dst_crs : CRS) (validity_check : bool)
    (vector : VectorDataset coords) (dst_bbox : Geometry coords) :
  fiona_open input_file = Return vector ->
  filter_box vector dst_bounds dst_crs = Return dst_bbox ->
  _get_reprojected_features input_file dst_bounds dst_crs validity_check =
  for_each
    (reproject_feature (vector_crs vector) dst_crs dst_bbox validity_check)
    (vector_filter vector (bounds_of dst_bbox)).
Proof.
  intros Hopen Hbox. unfold _get_reprojected_features, filter_box in *.
  rewrite Hopen, Hbox. reflexivity.
Qed.

(** X10.  The features that [_get_reprojected_features] yields carry the
    properties of candidates of the bounding-box filter, unchanged, in
    the order of the dataset, each candidate giving at most one feature:
    no feature is invented, repeated or reordered. *)
Theorem _get_reprojected_features_properties (input_file : string)
    (dst_bounds : Bounds) (dst_crs : CRS) (validity_check : bool)
    (vector : VectorDataset coords) (dst_bbox : Geometry coords) :
  fiona_open input_file = Return vector ->
  filter_box vector dst_bounds dst_crs = Return dst_bbox ->
  sublist
    (map f_properties
       (yielded (events (_get_reprojected_features input_file dst_bounds
                           dst_crs validity_check))))
    (map f_properties (vector_filter vector (bounds_of dst_bbox))).
Proof.
  intros Hopen Hbox.
  rewrite (_get_reprojected_features_loop _ _ _ _ _ _ Hopen Hbox).
  induction (vector_filter vector (bounds_of dst_bbox)) as [|x l IH];
    [constructor|].
  cbn [for_each map].
  pose proof (reproject_feature_cases (vector_crs vector) dst_crs dst_bbox
                validity_check x) as Hx.
  destruct (reproject_feature _ _ _ _ x) as [evs|evs e]; cbn [events].
  - rewrite yielded_app, map_app.
    destruct Hx as [[geom ->]|[msg ->]]; cbn.
    + apply sublist_skip, IH.
    + apply sublist_cons, IH.
  - subst evs. apply sublist_nil_l.
Qed.

(** X11.  When the read ends without an exception, every candidate of the
    bounding-box filter has been answered by a yielded feature or by a
    warning: no candidate is dropped in silence. *)
Theorem _get_reprojected_features_no_silent_drop (input_file : string)
    (dst_bounds : Bounds) (dst_crs : CRS) (validity_check : bool)
    (vector : VectorDataset coords) (dst_bbox : Geometry coords) :
  fiona_open input_file = Return vector ->
  filter_box vector dst_bounds dst_crs = Return dst_bbox ->
  raised (_get_reprojected_features input_file dst_bounds dst_crs
            validity_check) = None ->
  (length (vector_filter vector (bounds_of dst_bbox)) <=
   length (yielded (events (_get_reprojected_features input_file dst_bounds
                              dst_crs validity_check))) +
   length (warned (events (_get_reprojected_features input_file dst_bounds
                             dst_crs validity_check))))%nat.
Proof.
  intros Hopen Hbox.
  rewrite (_get_reprojected_features_loop _ _ _ _ _ _ Hopen Hbox).
  induction (vector_filter vector (bounds_of dst_bbox)) as [|x l IH];
    [intros _; cbn; lia|].
  cbn [for_each].
  pose proof (reproject_feature_cases (vector_crs vector) dst_crs dst_bbox
                validity_check x) as Hx.
  destruct (reproject_feature _ _ _ _ x) as [evs|evs e];
    cbn [events raised]; [|discriminate].
  intros Hend. specialize (IH Hend).
  rewrite yielded_app, warned_app, !length_app. cbn [length].
  destruct Hx as [[geom Hy]|[msg ->]].
  - rewrite Hy. cbn [length]. lia.
  - cbn. lia.
Qed.

(** X12.  When the dataset cannot be opened, [read_vector_window] yields
    no feature and issues no warning, and it ends with the exception of
    the open, unless the tile was split into no box at all. *)
Theorem read_vector_window_open_failure (input_file : string)
    (tile : BufferedTile coords) (validity_check : bool) (e : exn) :
  fiona_open input_file = Raise e ->
  events (read_vector_window input_file tile validity_check) = [] /\
  (raised (read_vector_window input_file tile validity_check) = Some e \/
   raised (read_vector_window input_file tile validity_check) = None /\
   clip_geometry_to_srs_bounds (bbox tile) (tile_pyramid tile) = []).
Proof.
  intros Hopen.
  assert (Hgen : forall b c,
            _get_reprojected_features input_file b c validity_check =
            mkStream [] (Some e)).
  { intros b c. unfold _get_reprojected_features. rewrite Hopen.
    reflexivity. }
  unfold read_vector_window.
  destruct (bounds tile) as [[[tile_left tile_bottom] tile_right] tile_top].
  destruct (negb _ && _).
  - destruct (clip_geometry_to_srs_bounds _ _) as [|b boxes].
    + split; [reflexivity|]. right. split; reflexivity.
    + cbn [map chain]. rewrite Hgen. cbn. split; [reflexivity|].
      left. reflexivity.
  - rewrite Hgen. split; [reflexivity|]. left. reflexivity.
Qed.

(** X13.  When the CRS of the dataset is that of the tile and the validity
    check is set, every geometry that [_get_reprojected_features] yields
    is valid and not empty. *)
Theorem _get_reprojected_features_valid (input_file : string)
    (dst_bounds : Bounds) (dst_crs : CRS) (vector : VectorDataset coords) :
  fiona_open input_file = Return vector ->
  vector_crs vector = dst_crs ->
  Forall
    (fun f => is_valid (f_geometry f) = true /\
              is_empty (f_geometry f) = false)
    (yielded (events (_get_reprojected_features input_file dst_bounds
                        dst_crs true))).
Proof.
  intros Hopen Hcrs.
  assert (Hbox : filter_box vector dst_bounds dst_crs =
                 Return (box dst_bounds)).
  { unfold filter_box. rewrite bool_decide_eq_true_2 by exact Hcrs.
    reflexivity. }
  rewrite (_get_reprojected_features_loop _ _ _ _ _ _ Hopen Hbox).
  rewrite Hcrs.
  induction (vector_filter vector (bounds_of (box dst_bounds)))
    as [|x l IH]; [constructor|].
  cbn [for_each].
  destruct (reproject_feature dst_crs dst_crs (box dst_bounds) true x)
    as [evs|evs e] eqn:Hx; cbn [events].
  - rewrite yielded_app. apply Forall_app. split; [|exact IH].
    unfold reproject_feature in Hx.
    destruct (negb (is_valid _)); [injection Hx as <-; constructor|].
    destruct (clean_geometry_type _ _ _) as [[geom|]|e0];
      [|injection Hx as <-; constructor|discriminate].
    destruct (is_empty geom) eqn:Hempty; cbn [negb] in Hx;
      [injection Hx as <-; constructor|].
    rewrite bool_decide_eq_true_2 in Hx by reflexivity. cbn [andb] in Hx.
    destruct (is_valid geom) eqn:Hvalid; [|discriminate].
    injection Hx as <-. cbn [yielded].
    constructor; [|constructor]. split; assumption.
  - pose proof (reproject_feature_cases dst_crs dst_crs (box dst_bounds)
                  true x) as Hc.
    rewrite Hx in Hc. subst evs. constructor.
Qed.

(** X14.  A valid geometry collection among the candidates ends the read:
    [clean_geometry_type] is called with the target type
    GeometryCollection, which it does not support, and its TypeError
    leaves the generator. *)
Theorem _get_reprojected_features_collection (input_file : string)
    (dst_bounds : Bounds) (dst_crs : CRS) (validity_check : bool)
    (vector : VectorDataset coords) (dst_bbox : Geometry coords)
    (feature : Feature coords) (rest : list (Feature coords))
    (members : list (Geometry coords)) :
  fiona_open input_file = Return vector ->
  filter_box vector dst_bounds dst_crs = Return dst_bbox ->
  vector_filter vector (bounds_of dst_bbox) = feature :: rest ->
  f_geometry feature = GeometryCollection members ->
  is_valid (f_geometry feature) = true ->
  _get_reprojected_features input_file dst_bounds dst_crs validity_check =
  mkStream [] (Some (TypeError "target type is not supported")).
Proof.
  intros Hopen Hbox Hfilter Hgeom Hvalid.
  rewrite (_get_reprojected_features_loop _ _ _ _ _ _ Hopen Hbox), Hfilter.
  cbn [for_each]. unfold reproject_feature.
  rewrite Hvalid. cbv beta iota zeta. rewrite Hvalid. cbn [negb].
  rewrite Hgeom. cbn [geom_type].
  rewrite clean_geometry_type_unfold, multipart_geoms_collection.
  reflexivity.
Qed.

End ReadExtras.

Lemma _get_reprojected_features_properties_witness :
  sublist
    (map f_properties
       (yielded (events
          (_get_reprojected_features (Engine := Planar.engine)
             (Library := Planar.library) "places.geojson"
             (0, 0, 45, 45)%Q (EPSG "epsg:3857") false))))
    (map f_properties [Planar.town; Planar.lake]).
Proof.
  apply (_get_reprojected_features_properties (Engine := Planar.engine)
           (Library := Planar.library) "places.geojson" (0, 0, 45, 45)%Q
           (EPSG "epsg:3857") false Planar.places
           (Planar.box (0, 0, 45, 45)%Q)).
  - reflexivity.
  - reflexivity.
Defined.

Lemma _get_reprojected_features_no_silent_drop_witness :
  (2 <=
   length (yielded (events
     (_get_reprojected_features (Engine := Planar.engine)
        (Library := Planar.library) "places.geojson" (0, 0, 45, 45)%Q
        (EPSG "epsg:3857") true))) +
   length (warned (events
     (_get_reprojected_features (Engine := Planar.engine)
        (Library := Planar.library) "places.geojson" (0, 0, 45, 45)%Q
        (EPSG "epsg:3857") true))))%nat.
Proof.
  apply (_get_reprojected_features_no_silent_drop (Engine := Planar.engine)
           (Library := Planar.library) "places.geojson" (0, 0, 45, 45)%Q
           (EPSG "epsg:3857") true Planar.places
           (Planar.box (0, 0, 45, 45)%Q)).
  - reflexivity.
  - reflexivity.
  - vm_compute. reflexivity.
Defined.

Lemma read_vector_window_open_failure_witness :
  events (read_vector_window (Engine := Planar.engine)
            (Library := Planar.library) (TM := Planar.tilematrix)
            "missing.geojson" Planar.corner_tile true) = [] /\
  (raised (read_vector_window (Engine := Planar.engine)
             (Library := Planar.library) (TM := Planar.tilematrix)
             "missing.geojson" Planar.corner_tile true) =
     Some (IOError "missing.geojson") \/
   raised (read_vector_window (Engine := Planar.engine)
             (Library := Planar.library) (TM := Planar.tilematrix)
             "missing.geojson" Planar.corner_tile true) = None /\
   clip_geometry_to_srs_bounds (Tilematrix := Planar.tilematrix)
     (bbox Planar.corner_tile) (tile_pyramid Planar.corner_tile) = []).
Proof.
  apply (read_vector_window_open_failure (Engine := Planar.engine)
           (Library := Planar.library) (TM := Planar.tilematrix)
           "missing.geojson" Planar.corner_tile true
           (IOError "missing.geojson")).
  reflexivity.
Defined.

Lemma _get_reprojected_features_valid_witness :
  Forall
    (fun f =>
       is_valid (GeometryEngine := Planar.engine) (f_geometry f) = true /\
       is_empty (GeometryEngine := Planar.engine) (f_geometry f) = false)
    (yielded (events
       (_get_reprojected_features (Engine := Planar.engine)
          (Library := Planar.library) "places.geojson" (0, 0, 45, 45)%Q
          (EPSG "epsg:3857") true))).
Proof.
  apply (_get_reprojected_features_valid (Engine := Planar.engine)
           (Library := Planar.library) "places.geojson" (0, 0, 45, 45)%Q
           (EPSG "epsg:3857") Planar.places).
  - reflexivity.
  - reflexivity.
Defined.

Lemma _get_reprojected_features_collection_witness :
  _get_reprojected_features (Engine := Planar.engine)
    (Library := Planar.archive) "mixed.geojson" (0, 0, 45, 45)%Q
    (EPSG "epsg:3857") false =
  mkStream [] (Some (TypeError "target type is not supported")).
Proof.
  apply (_get_reprojected_features_collection (Engine := Planar.engine)
           (Library := Planar.archive) "mixed.geojson" (0, 0, 45, 45)%Q
           (EPSG "epsg:3857") false
           (mkDataset (EPSG "epsg:3857") [Planar.mixed; Planar.town])
           (Planar.box (0, 0, 45, 45)%Q) Planar.mixed [Planar.town]
           [Point [(1, 1)%Q]; f_geometry Planar.lake]);
    reflexivity.
Defined.

(** ** Window write *)

Section WriteExtras.
Context {coords : Type} `{Engine : GeometryEngine coords}
        `{Library : VectorLibrary coords}.

(** One iteration of the loop of [write_vector_window]: a feature that is
    kept has the properties of the input feature and a geometry that is
    not empty and is of the schema's geometry type or of its family. *)
Lemma clip_feature_kept (out_schema : Schema)
    (out_tile : BufferedTile coords) (feature kept : Feature coords)
    (msgs : list string) :
  clip_feature out_schema out_tile feature = (Some kept, msgs) ->
  f_properties kept = f_properties feature /\
  is_empty (f_geometry kept) = false /\
  (geom_type (f_geometry kept) = schema_geometry out_schema \/
   exists cls,
     multipart_geoms !! schema_geometry out_schema = Some cls /\
     in_family (geom_type (f_geometry kept)) cls).
Proof.
  unfold clip_feature.
  destruct (geom_type _ =? schema_geometry out_schema)%string eqn:E;
    cbn [negb].
  - destruct (is_empty _) eqn:Hempty; cbn [negb]; [discriminate|].
    intros [= <- _]. cbn. apply String.eqb_eq in E. auto.
  - destruct (clean_geometry_type _ _ _) as [[g|]|e] eqn:Hclean;
      try discriminate.
    destruct (is_empty g) eqn:Hempty; cbn [negb]; [discriminate|].
    intros [= <- _]. cbn. repeat split; [exact Hempty|]. right.
    destruct (multipart_geoms !! schema_geometry out_schema) as [cls|]
      eqn:Hsup.
    + exists cls. split; [exact Hsup|].
      exact (clean_geometry_type_some _ _ _ _ _ Hsup Hclean).
    + rewrite clean_geometry_type_unfold, Hsup in Hclean. discriminate.
Qed.

(** X15.  The features that [write_vector_window] hands to the dataset
    writer carry the properties of input features, unchanged and in
    input order, and each has a geometry that is not empty and whose type
    is the geometry type of the schema or belongs to its family. *)
Theorem clip_features_contract (out_schema : Schema)
    (out_tile : BufferedTile coords) (in_data : list (Feature coords)) :
  sublist (map f_properties (fst (clip_features out_schema out_tile in_data)))
          (map f_properties in_data) /\
  Forall
    (fun f =>
       is_empty (f_geometry f) = false /\
       (geom_type (f_geometry f) = schema_geometry out_schema \/
        exists cls,
          multipart_geoms !! schema_geometry out_schema = Some cls /\
          in_family (geom_type (f_geometry f)) cls))
    (fst (clip_features out_schema out_tile in_data)).
Proof.
  induction in_data as [|feature rest [IHs IHf]]; cbn [clip_features].
  - split; constructor.
  - destruct (clip_feature out_schema out_tile feature) as [kept msgs]
      eqn:Hkept.
    destruct (clip_features out_schema out_tile rest) as [out more].
    cbn [fst map] in *.
    destruct kept as [f|].
    + destruct (clip_feature_kept _ _ _ _ _ Hkept) as (Hprops & Hgeom).
      cbn [map]. rewrite Hprops. split.
      * apply sublist_skip, IHs.
      * constructor; assumption.
    + split; [apply sublist_cons, IHs|exact IHf].
Qed.


End WriteExtras.


(** ** Composite tiles *)

Lemma chain_single {coords : Type} (s : stream coords) : chain [s] = s.
Proof.
  destruct s as [evs [e|]]; cbn; [reflexivity|].
  rewrite app_nil_r. reflexivity.
Qed.

Section CompositeExtras.
Import IoUtils.
Context {coords : Type} `{Engine : GeometryEngine coords}
        `{Env : Environment coords}.

(** X17.  A composite tile that [is_empty] reports empty reads as the
    empty sequence, without an exception. *)
Theorem VectorProcessTile_empty_read (self : VectorProcessTile coords)
    (w : world) :
  VectorProcessTile_is_empty self w = true ->
  VectorProcessTile_read self false w = mkStream [] None.
Proof.
  unfold VectorProcessTile_is_empty, VectorProcessTile_read.
  destruct (List.filter _ (src_tiles self)); [reflexivity|discriminate].
Qed.

(** X18.  When the destination tile is its own and only covering tile, the
    read with neighbors and the read without neighbors are the same. *)
Theorem VectorProcessTile_read_modes_agree (self : VectorProcessTile coords)
    (w : world) :
  covering self = [vp_tile self] ->
  VectorProcessTile_read self false w = VectorProcessTile_read self true w.
Proof.
  intros Hcover. unfold VectorProcessTile_read, src_tiles.
  fold (covering self). rewrite Hcover. cbn [map List.filter].
  destruct (exists_ _ w); cbn [map]; [apply chain_single|reflexivity].
Qed.

(** X19.  A NumPy tile that [is_empty] reports not empty reads as the
    array stored for it; the string that stands for a missing tile is
    returned only for tiles that [is_empty] reports empty. *)
Theorem NumpyTile_not_empty_read {ndarray : Type}
    (read_numpy : string -> ndarray) (process_area : Z -> Geometry coords)
    (self : NumpyTile coords) (indexes indexes' : option (list Z + Z))
    (w : world) :
  NumpyTile_is_empty process_area self indexes w = false ->
  NumpyTile_read read_numpy self indexes' w =
  PyArray (read_numpy (tile_path (np_process self) (np_tile self))).
Proof.
  unfold NumpyTile_is_empty, NumpyTile_read.
  destruct (negb (intersects _ _)); [discriminate|].
  destruct (exists_ _ w); [reflexivity|discriminate].
Qed.

End CompositeExtras.

Lemma VectorProcessTile_empty_read_witness :
  IoUtils.VectorProcessTile_read (Env := Planar.environment)
    Planar.west_view false (mkWorld ∅ []) = mkStream [] None.
Proof.
  apply (VectorProcessTile_empty_read (Env := Planar.environment)
           Planar.west_view (mkWorld ∅ [])).
  vm_compute. reflexivity.
Defined.

Lemma VectorProcessTile_read_modes_agree_witness :
  IoUtils.VectorProcessTile_read (Env := Planar.environment)
    Planar.lone_view false Planar.west_stored =
  IoUtils.VectorProcessTile_read (Env := Planar.environment)
    Planar.lone_view true Planar.west_stored.
Proof.
  apply (VectorProcessTile_read_modes_agree (Env := Planar.environment)
           Planar.lone_view Planar.west_stored).
  reflexivity.
Defined.

Lemma NumpyTile_not_empty_read_witness :
  IoUtils.NumpyTile_read (fun path : string => [[String.length path]])
    Planar.west_numpy None Planar.west_stored =
  IoUtils.PyArray [[12%nat]].
Proof.
  apply (NumpyTile_not_empty_read (Engine := Planar.engine)
           (Env := Planar.environment)
           (fun path : string => [[String.length path]])
           Planar.whole_area Planar.west_numpy (Some (inr 1%Z)) None
           Planar.west_stored).
  vm_compute. reflexivity.
Defined.

(** ** Segmentizing *)

Section SegmentizeExtras.
Context {coords : Type} `{Rings : RingLibrary coords}.

(** The points appended by the loop contain the coordinates of the ring,
    in order. *)
Lemma segmentize_ring_keeps (p_xy : option (Q * Q)) (ring pts : list (Q * Q))
    (segmentize_value : Q) :
  segmentize_ring p_xy ring segmentize_value = Return pts ->
  sublist ring pts.
Proof.
  revert p_xy pts.
  induction ring as [|xy rest IH]; intros p_xy pts; cbn [segmentize_ring].
  - intros [= <-]. constructor.
  - destruct (match p_xy with None => _ | Some _ => _ end)
      as [inserted|e]; cbn [bind]; [|discriminate].
    destruct (segmentize_ring (Some xy) rest segmentize_value)
      as [more|e] eqn:Hmore; cbn [bind]; [|discriminate].
    intros [= <-].
    apply sublist_inserts_l, sublist_skip, (IH _ _ Hmore).
Qed.

(** X20.  [segmentize_geometry] returns for polygons only, and the ring
    of the polygon it returns contains every coordinate of the exterior
    ring of the input, in the order of the input: points are inserted,
    none is moved or dropped. *)
Theorem segmentize_geometry_keeps_vertices (geometry r : Geometry coords)
    (segmentize_value : Q) :
  segmentize_geometry geometry segmentize_value = Return r ->
  exists c points,
    geometry = Polygon c /\
    polygon_of_ring points = Return r /\
    sublist (exterior_coords c) points.
Proof.
  destruct geometry as [c|c|c|k parts|members]; try discriminate.
  cbn [segmentize_geometry].
  destruct (segmentize_ring None (exterior_coords c) segmentize_value)
    as [points|e] eqn:Hring; cbn [bind]; [|discriminate].
  intros Hpolygon. exists c, points.
  repeat split; [exact Hpolygon|].
  exact (segmentize_ring_keeps _ _ _ _ Hring).
Qed.

Lemma segmentize_ring_short (p_xy : option (Q * Q)) (ring : list (Q * Q))
    (segmentize_value : Q) :
  Forall (fun '(p, q) => segment_steps p q segmentize_value = Return 0%nat)
    (consecutive (match p_xy with
                  | Some p => p :: ring
                  | None => ring
                  end)) ->
  segmentize_ring p_xy ring segmentize_value = Return ring.
Proof.
  revert p_xy.
  induction ring as [|xy rest IH]; intros p_xy Hshort;
    cbn [segmentize_ring]; [reflexivity|].
  destruct p_xy as [p|].
  - cbn [consecutive] in Hshort. apply Forall_cons in Hshort as [Hp Hrest].
    rewrite Hp. cbn [bind seq map].
    rewrite (IH (Some xy) Hrest). reflexivity.
  - cbn [bind]. rewrite (IH (Some xy) Hshort). reflexivity.
Qed.

(** X21.  When no two neighbouring coordinates of the exterior ring are a
    full [segmentize_value] apart, [segmentize_geometry] inserts nothing:
    the polygon is rebuilt from the ring as it is. *)
Theorem segmentize_geometry_short_segments (c : coords)
    (segmentize_value : Q) :
  Forall (fun '(p, q) => segment_steps p q segmentize_value = Return 0%nat)
    (consecutive (exterior_coords c)) ->
  segmentize_geometry (Polygon c) segmentize_value =
  polygon_of_ring (exterior_coords c).
Proof.
  intros Hshort. cbn [segmentize_geometry].
  rewrite (segmentize_ring_short None _ _ Hshort). reflexivity.
Qed.

End SegmentizeExtras.

Lemma segmentize_geometry_keeps_vertices_witness :
  exists c points,
    Planar.square = Polygon c /\
    polygon_of_ring (RingLibrary := Planar.rings) points =
      Return (Polygon [(0, 0); (0, 0); (2, 0); (4, 0); (4, 0); (4, 2);
                       (4, 4); (4, 4); (2, 4); (0, 4); (0, 4); (0, 2);
                       (0, 0)]%Q) /\
    sublist (exterior_coords (RingLibrary := Planar.rings) c) points.
Proof.
  apply (segmentize_geometry_keeps_vertices (Rings := Planar.rings)
           Planar.square
           (Polygon [(0, 0); (0, 0); (2, 0); (4, 0); (4, 0); (4, 2);
                     (4, 4); (4, 4); (2, 4); (0, 4); (0, 4); (0, 2);
                     (0, 0)]%Q) 2).
  vm_compute. reflexivity.
Defined.

Lemma segmentize_geometry_short_segments_witness :
  segmentize_geometry (Rings := Planar.rings) Planar.square 5 =
  Return Planar.square.
Proof.
  apply (segmentize_geometry_short_segments (Rings := Planar.rings)
           [(0, 0); (4, 0); (4, 4); (0, 4); (0, 0)]%Q 5).
  repeat constructor.
Defined.

(** ** Chained reads *)

(** A chain of generators none of which raises is the concatenation of what
    they produce. *)
Lemma chain_all_return {coords : Type} (gens : list (stream coords)) :
  Forall (fun s => raised s = None) gens ->
  chain gens = mkStream (flat_map events gens) None.
Proof.
  induction 1 as [|s gens Hs _ IH]; cbn [chain flat_map]; [reflexivity|].
  rewrite Hs, IH. reflexivity.
Qed.


Section ChainedReads.
Context {coords : Type} `{Engine : GeometryEngine coords}
        `{Library : VectorLibrary coords} `{TM : Tilematrix coords}.


End ChainedReads.

Section ChainedTiles.
Import IoUtils.
Context {coords : Type} `{Env : Environment coords}.

(** X23.  When the window read of every stored covering tile ends without
    an exception, the composite read produces what these reads produce,
    one after the other in covering-tile order, and ends without an
    exception: nothing is merged or dropped between tiles. *)
Theorem VectorProcessTile_read_concatenates (self : VectorProcessTile coords)
    (w : world) :
  let read_tile := fun t =>
    read_vector_window (tile_path (vp_process self) t) t
      (vp_pixelbuffer self) in
  Forall (fun t => stored self w t = true -> raised (read_tile t) = None)
    (covering self) ->
  VectorProcessTile_read self false w =
  mkStream
    (flat_map (fun t => events (read_tile t))
       (List.filter (stored self w) (covering self)))
    None.
Proof.
  intros read_tile Hok.
  unfold VectorProcessTile_read, src_tiles. fold (covering self).
  rewrite filter_map_comm, map_map. cbn [id path process_tile].
  fold (stored self w). fold read_tile.
  rewrite chain_all_return.
  - rewrite flat_map_concat_map, map_map, <- flat_map_concat_map.
    reflexivity.
  - apply Forall_map. unfold stored in Hok.
    induction Hok as [|t l Ht _ IH]; cbn [List.filter].
    + constructor.
    + unfold exists_ at 1. cbn [path process_tile].
      destruct (isfile (tile_path (vp_process self) t) w); [|exact IH].
      constructor; [exact (Ht eq_refl)|exact IH].
Qed.

End ChainedTiles.


Lemma VectorProcessTile_read_concatenates_witness :
  IoUtils.VectorProcessTile_read (Env := Planar.environment)
    Planar.west_view false Planar.both_stored =
  mkStream
    (flat_map
       (fun t =>
          events
            (IoUtils.read_vector_window (Environment := Planar.environment)
               (IoUtils.tile_path Planar.two_columns t) t 1))
       (List.filter (stored Planar.west_view Planar.both_stored)
          (covering (Env := Planar.environment) Planar.west_view)))
    None.
Proof.
  apply (VectorProcessTile_read_concatenates (Env := Planar.environment)
           Planar.west_view Planar.both_stored).
  repeat constructor.
Defined.
